(** * Point Cloud Viewer: the orbit camera and the point-cloud store of [src/App.jsx]

    A shallow embedding of the stateful parts of the [App] component:
    the orbit controller installed by the bootstrap effect (lines 61-86),
    [loadShape] (lines 124-165) and the two controls of the side panel that
    invoke it (lines 196-223).

    JavaScript numbers are IEEE 754 binary64 values, so they are modelled by
    Rocq's primitive [float], whose operations are the same binary64
    operations.  [Math.sin] and [Math.cos], which the language leaves to the
    implementation to approximate, and the conversions of strings and
    objects to numbers are parameters.  The asynchronous [loadShape] is a
    state machine with one state per [await]; its side effects are logged
    in the order the statements run. *)

From Stdlib Require Import ZArith Bool Lia Floats Ascii String.
From stdpp Require Import base list strings gmap.

Local Open Scope float_scope.

Set Warnings "-register-all".

(** ** JavaScript numbers *)

Module Num.

(** The literals of the source, as the binary64 values the engine reads
    them as. *)
Definition PI : float := 0x1.921fb54442d18p+1.  (* Math.PI *)
Definition lit_0_1 : float := 0x1.999999999999ap-4.    (* 0.1   *)
Definition lit_0_008 : float := 0x1.0624dd2f1a9fcp-7.  (* 0.008 *)
Definition lit_0_004 : float := 0x1.0624dd2f1a9fcp-8.  (* 0.004 *)
Definition lit_1_2 : float := 0x1.3333333333333p+0.    (* 1.2   *)
Definition lit_2_8 : float := 0x1.6666666666666p+1.    (* 2.8   *)
Definition lit_8 : float := 8.
Definition lit_2 : float := 2.

(** [true] for the value [-0]. *)
Definition is_neg_zero (a : float) : bool := is_zero a && get_sign a.

(** [Math.max(a, b)] (ECMAScript 21.3.2.24 for two arguments): a NaN
    argument gives NaN, and [+0] counts as larger than [-0]. *)
Definition Math_max (a b : float) : float :=
  if is_nan a || is_nan b then nan
  else if a <? b then b
  else if b <? a then a
  else if is_neg_zero a then b else a.

(** [Math.min(a, b)] (ECMAScript 21.3.2.25): a NaN argument gives NaN,
    and [-0] counts as smaller than [+0]. *)
Definition Math_min (a b : float) : float :=
  if is_nan a || is_nan b then nan
  else if a <? b then a
  else if b <? a then b
  else if is_neg_zero b then b else a.

(** On the specification side of a binary64 value: zero or finite, that is
    neither NaN nor an infinity. *)
Definition sf_finite (x : spec_float) : bool :=
  match x with S754_zero _ | S754_finite _ _ _ => true | _ => false end.

(** [lo <= x <= hi], as the comparisons of the language decide it. *)
Definition between (lo hi x : float) : bool := (lo <=? x) && (x <=? hi).

(** [lo < x < hi]: the open interval. *)
Definition strictly_between (lo hi x : float) : bool := (lo <? x) && (x <? hi).

End Num.

(** ** three.js vectors

    The method of [THREE.Vector3] that the wheel handler calls,
    [setLength], with the methods it is made of, as three.js defines them. *)

Module Vector3.

Record t : Type := mk { x : float; y : float; z : float }.

Definition origin : t := mk 0 0 0.

(** [v.length()]: [Math.sqrt(x*x + y*y + z*z)]. *)
Definition length (v : t) : float :=
  PrimFloat.sqrt (x v * x v + y v * y v + z v * z v).

(** [v.multiplyScalar(s)]. *)
Definition multiplyScalar (s : float) (v : t) : t :=
  mk (x v * s) (y v * s) (z v * s).

(** [v.divideScalar(s)]: [multiplyScalar(1 / s)]. *)
Definition divideScalar (s : float) (v : t) : t := multiplyScalar (1 / s) v.

(** [l || 1]: zero and NaN are the falsy numbers. *)
Definition or_one (l : float) : float :=
  if is_zero l || is_nan l then 1 else l.

(** [v.normalize()]: [divideScalar(length() || 1)]. *)
Definition normalize (v : t) : t := divideScalar (or_one (length v)) v.

(** [v.setLength(l)]: [normalize().multiplyScalar(l)]. *)
Definition setLength (l : float) (v : t) : t := multiplyScalar l (normalize v).

End Vector3.

(** ** The orbit camera controller (App.jsx, lines 61-86) *)

Module Orbit.

(** What [camera.lookAt] leaves in the camera's rotation: the rotation
    is the one that, from [eye], faces [target]. *)
Inductive Orientation : Type :=
| Unrotated
| LookAt (eye target : Vector3.t).

Record Camera : Type := mkCamera {
  position : Vector3.t;
  orientation : Orientation
}.

Record Controller : Type := mkController {
  isDragging : bool;
  prevMouse : float * float;      (* { x, y } *)
  theta : float;                  (* spherical.theta, the azimuth *)
  phi : float;                    (* spherical.phi, the polar angle *)
  radius : float;
  camera : Camera
}.

(** The DOM events the four listeners receive, with the fields they read. *)
Inductive Input : Type :=
| MouseDown (clientX clientY : float)
| MouseUp
| MouseMove (clientX clientY : float)
| Wheel (deltaY : float).

(** The bounds of the two clamps. *)
Definition phi_min : float := Num.lit_0_1.
Definition phi_max : float := Num.PI - Num.lit_0_1.
Definition radius_min : float := Num.lit_1_2.
Definition radius_max : float := Num.lit_8.
Definition sensitivity : float := Num.lit_0_008.

(** Lines 62-65 and 42: the state the bootstrap effect starts from. *)
Definition initial : Controller :=
  {| isDragging := false;
     prevMouse := (0, 0);
     theta := 0;
     phi := Num.PI / Num.lit_2;
     radius := Num.lit_2_8;
     camera := mkCamera (Vector3.mk 0 0 Num.lit_2_8) Unrotated |}.

Definition onMouseDown (clientX clientY : float) (c : Controller) : Controller :=
  {| isDragging := true;
     prevMouse := (clientX, clientY);
     theta := theta c; phi := phi c; radius := radius c; camera := camera c |}.

Definition onMouseUp (c : Controller) : Controller :=
  {| isDragging := false;
     prevMouse := prevMouse c;
     theta := theta c; phi := phi c; radius := radius c; camera := camera c |}.

Section Trigonometry.
Variables Math_sin Math_cos : float -> float.

(** Lines 76-80: the point at [r], [th], [ph] on the sphere around the
  origin, with the products in the order the source writes them. *)
Definition on_sphere (r th ph : float) : Vector3.t :=
  Vector3.mk (r * Math_sin ph * Math_sin th)
             (r * Math_cos ph)
             (r * Math_sin ph * Math_cos th).

Definition onMouseMove (clientX clientY : float) (c : Controller) : Controller :=
  if negb (isDragging c) then c
  else
    let dx := clientX - fst (prevMouse c) in
    let dy := clientY - snd (prevMouse c) in
    let theta' := theta c - dx * Num.lit_0_008 in
    let phi' :=
      Num.Math_max Num.lit_0_1
        (Num.Math_min (Num.PI - Num.lit_0_1) (phi c + dy * Num.lit_0_008)) in
    let p := on_sphere (radius c) theta' phi' in
    {| isDragging := isDragging c;
       prevMouse := (clientX, clientY);
       theta := theta';
       phi := phi';
       radius := radius c;
       camera := mkCamera p (LookAt p Vector3.origin) |}.

Definition onWheel (deltaY : float) (c : Controller) : Controller :=
  let radius' :=
    Num.Math_max Num.lit_1_2
      (Num.Math_min Num.lit_8 (radius c + deltaY * Num.lit_0_004)) in
  {| isDragging := isDragging c;
     prevMouse := prevMouse c;
     theta := theta c; phi := phi c;
     radius := radius';
     camera := mkCamera (Vector3.setLength radius' (position (camera c)))
                        (orientation (camera c)) |}.

Definition handle (c : Controller) (i : Input) : Controller :=
  match i with
  | MouseDown cx cy => onMouseDown cx cy c
  | MouseUp => onMouseUp c
  | MouseMove cx cy => onMouseMove cx cy c
  | Wheel d => onWheel d c
  end.

(** The controller after a sequence of inputs, oldest first. *)
Definition run (c : Controller) (inputs : list Input) : Controller :=
  fold_left handle inputs c.

End Trigonometry.

(** Event coordinates are finite numbers: the DOM declares them as
    [double] (or [long]), which excludes NaN and the infinities. *)
Definition well_formed (i : Input) : bool :=
  match i with
| MouseDown cx cy | MouseMove cx cy => is_finite cx && is_finite cy
| MouseUp => true
| Wheel d => is_finite d
  end.

(** What every handler maintains: the recorded pointer position is finite
    and both clamped quantities are between their bounds. *)
Definition invariant (c : Controller) : Prop :=
  is_finite (fst (prevMouse c)) = true /\
  is_finite (snd (prevMouse c)) = true /\
  Num.between phi_min phi_max (phi c) = true /\
  Num.between radius_min radius_max (radius c) = true.

End Orbit.

(** ** JSON values and the numeric conversions of typed arrays *)

Module Json.

(** What [response.json()] can resolve to.  An object is the list of its own
    properties, one binding per key. *)
Inductive value : Type :=
| Null
| Bool (b : bool)
| Number (n : float)
| String (s : string)
| Array (items : list value)
| Object (members : list (string * value)).

(** The own property [key] of an object's member list. *)
Fixpoint own_property (key : string) (members : list (string * value)) : option value :=
  match members with
  | [] => None
  | (k, v) :: rest => if String.eqb k key then Some v else own_property key rest
  end.

(** [p.x], [p.y], [p.z] for a key that no prototype defines: [None] when
    the access throws a TypeError ([p] is [null]), [Some None] when it yields
    [undefined], [Some (Some v)] for the value read. *)
Definition get (p : value) (key : string) : option (option value) :=
  match p with
  | Null => None
  | Object members => Some (own_property key members)
  | Bool _ | Number _ | String _ | Array _ => Some None
  end.

(** Round a binary64 value to the nearest binary32 value, ties to even: what
    storing into a [Float32Array] element does. *)
Definition fround (n : float) : float :=
  match Prim2SF n with
  | S754_finite s m e => SF2Prim (binary_round 24 128 s m e)
  | _ => n
  end.

Section Conversions.
(** [StringToNumber] of the language, and [ToNumber] of an array or object
    (through [ToPrimitive], which can throw): both belong to the engine. *)
Variable StringToNumber : string -> float.
Variable ObjectToNumber : value -> option float.

(** [ToNumber(v)], where [None] stands for [undefined]; the result is
    [None] when the conversion throws. *)
Definition ToNumber (v : option value) : option float :=
  match v with
  | None => Some nan
  | Some Null => Some 0
  | Some (Bool b) => Some (if b then 1 else 0)
  | Some (Number n) => Some n
  | Some (String s) => Some (StringToNumber s)
  | Some (Array items) => ObjectToNumber (Array items)
  | Some (Object members) => ObjectToNumber (Object members)
  end.

(** [new Float32Array(elements)]: every element converted with [ToNumber]
    and stored as a binary32 value; [None] when a conversion throws. *)
Fixpoint Float32Array (elements : list (option value)) : option (list float) :=
  match elements with
  | [] => Some []
  | v :: rest =>
      match ToNumber v with
      | None => None
      | Some n =>
          match Float32Array rest with
          | None => None
          | Some ns => Some (fround n :: ns)
          end
      end
  end.

End Conversions.

(** The callback of line 144, [p => [p.x, p.y, p.z]]. *)
Definition xyz (p : value) : option (list (option value)) :=
  match get p "x", get p "y", get p "z" with
  | Some vx, Some vy, Some vz => Some [vx; vy; vz]
  | _, _, _ => None
  end.

(** [items.flatMap(p => [p.x, p.y, p.z])]: the three reads of each element,
    appended in element order; [None] when a read throws. *)
Fixpoint flatMap_xyz (items : list value) : option (list (option value)) :=
  match items with
  | [] => Some []
  | p :: rest =>
      match xyz p with
      | None => None
      | Some coords =>
          match flatMap_xyz rest with
          | None => None
          | Some more => Some (coords ++ more)
          end
      end
  end.

(** [rawPoints.flatMap(...)]: only an array has the method; on anything else
    the call throws a TypeError. *)
Definition flatMap_points (rawPoints : value) : option (list (option value)) :=
  match rawPoints with
  | Array items => flatMap_xyz items
  | _ => None
  end.

(** A point as the backend documents it: an object with numeric [x], [y], [z]. *)
Definition point (px py pz : float) : value :=
  Object [("x"%string, Number px); ("y"%string, Number py); ("z"%string, Number pz)].

End Json.

(** ** The three.js objects of the scene

    three.js is a dependency of the viewer; the definitions below follow
    what its classes do with the calls of [loadShape]. *)

Module Three.

(** A [THREE.Color], by the 24-bit value [getHex()] returns. *)
Definition Color : Type := Z.

Definition white : Color := 0xffffff%Z.

Definition hex_digit (c : ascii) : option Z :=
  let n := Z.of_N (Ascii.N_of_ascii c) in
  if (48 <=? n)%Z && (n <=? 57)%Z then Some (n - 48)%Z
  else if (65 <=? n)%Z && (n <=? 70)%Z then Some (n - 55)%Z
  else if (97 <=? n)%Z && (n <=? 102)%Z then Some (n - 87)%Z
  else None.

(** [parseInt(digits, 16)] on a string of hexadecimal digits only. *)
Fixpoint parse_hex (acc : Z) (digits : string) : option Z :=
  match digits with
  | EmptyString => Some acc
  | String.String c rest =>
      match hex_digit c with
      | Some d => parse_hex (16 * acc + d)%Z rest
      | None => None
      end
  end.

(** [color.setStyle(style)] for the six-digit form [#rrggbb], the only form
    the viewer passes; any other style is reported as [None]. *)
Definition setStyle (style : string) : option Color :=
  match style with
  | String.String "#"%char digits =>
      if (String.length digits =? 6)%nat then parse_hex 0 digits else None
  | _ => None
  end.

(** The values an expression [TABLE[key] || fallback] can take when the
    table holds strings: a string, or a function or object inherited from
    [Object.prototype]. *)
Inductive ColorArg : Type :=
| StyleString (style : string)
| Inherited.

(** [new THREE.Color(arg)]: the constructor starts from white and [set]
    changes it only for a colour, a number or a string. *)
Definition new_Color (arg : ColorArg) : Color :=
  match arg with
  | StyleString style => default white (setStyle style)
  | Inherited => white
  end.

Record BufferAttribute : Type := mkBufferAttribute {
  array : list float;
  itemSize : Z
}.

Record BufferGeometry : Type := mkBufferGeometry {
  geometry_id : nat;
  position_attribute : option BufferAttribute
}.

Record PointsMaterial : Type := mkPointsMaterial {
  material_id : nat;
  color : Color;
  size : float;
  sizeAttenuation : bool;
  transparent : bool;
  opacity : float
}.

Record Points : Type := mkPoints {
  points_id : nat;
  geometry : BufferGeometry;
  material : PointsMaterial
}.

(** The children of the scene. *)
Inductive Object3D : Type :=
| GridHelper
| AxesHelper
| PointCloud (p : Points).

Definition is_object (id : nat) (o : Object3D) : bool :=
  match o with
  | PointCloud p => Nat.eqb (points_id p) id
  | _ => false
  end.

(** [scene.add(o)] for an object without a parent. *)
Definition add (o : Object3D) (children : list Object3D) : list Object3D :=
  children ++ [o].

(** [scene.remove(p)]: drops the child that is the object [p]. *)
Definition remove (p : Points) (children : list Object3D) : list Object3D :=
  filter (fun o => is_object (points_id p) o = false) children.

End Three.

(** ** The viewer session and [loadShape] (App.jsx, lines 4-28 and 124-167) *)

Module Store.

Definition SHAPES : list string :=
  ["sphere"; "torus"; "plane"; "helix"; "cylinder"; "cube"; "octahedron"]%string.

Definition COLORS : gmap string string :=
  list_to_map
    [("sphere", "#00e5ff"); ("torus", "#ff6b6b"); ("plane", "#69ff47");
     ("helix", "#ffd600"); ("cylinder", "#ff3d00"); ("cube", "#40c4ff");
     ("random", "#f040f1"); ("octahedron", "#7c4dff")]%string.

(** The property names every object literal inherits from
    [Object.prototype]; each holds a function or an object. *)
Definition Object_prototype_names : list string :=
  ["constructor"; "__defineGetter__"; "__defineSetter__"; "hasOwnProperty";
   "__lookupGetter__"; "__lookupSetter__"; "isPrototypeOf";
   "propertyIsEnumerable"; "toString"; "valueOf"; "__proto__";
   "toLocaleString"]%string.

(** Line 147: [COLORS[shapeName] || "#ffffff"]. *)
Definition color_argument (shapeName : string) : Three.ColorArg :=
  match COLORS !! shapeName with
  | Some style =>
      if String.eqb style "" then Three.StyleString "#ffffff"
      else Three.StyleString style
  | None =>
      if bool_decide (shapeName ∈ Object_prototype_names) then Three.Inherited
      else Three.StyleString "#ffffff"
  end.

Definition points_url (shapeName : string) : string :=
  ("shapes/" +:+ shapeName +:+ ".points.json")%string.

Definition stats_url (shapeName : string) : string :=
  ("shapes/" +:+ shapeName +:+ ".stats.json")%string.

Definition backend_message : string :=
  "Could not connect to backend. Make sure FastAPI is running on :8000"%string.

(** How a [fetch] ends: rejected, or resolved with a response of any
    status whose body parses as JSON or does not. *)
Inductive FetchResult : Type :=
| NetworkError
| Response (status : Z) (body : option Json.value).

(** [fetch(url).then(x => x.json())]: [None] when the promise rejects.
    The status of the response is not read. *)
Definition then_json (r : FetchResult) : option Json.value :=
  match r with
  | NetworkError => None
  | Response _ body => body
  end.

(** A [loadShape] invocation suspended at one of its two [await]s. *)
Inductive Pending : Type :=
| AwaitingPoints (shapeName : string)
| AwaitingStats (shapeName : string) (rawPoints : Json.value).

(** The side effects of the component, as they are logged in [trace]. *)
Inductive Effect : Type :=
| SetShape (s : string)
| SetStats (s : Json.value)
| SetLoading (b : bool)
| SetError (e : option string)
| Fetch (url : string)
| Settled (url : string)
| SceneRemove (id : nat)
| DisposeGeometry (id : nat)
| DisposeMaterial (id : nat)
| NewGeometry (id : nat)
| NewMaterial (id : nat)
| NewPoints (id : nat)
| SceneAdd (id : nat)
| SetPointsRef (id : nat).

Record State : Type := mkState {
  shape : string;                     (* useState("sphere") *)
  stats : Json.value;                 (* useState(null) *)
  loading : bool;                     (* useState(false) *)
  error : option string;              (* useState(null) *)
  scene : list Three.Object3D;        (* children of sceneRef.current *)
  pointsRef : option Three.Points;    (* pointsRef.current *)
  disposed : list nat;                (* geometries and materials released *)
  next_id : nat;                      (* identities given to new objects *)
  orbit : Orbit.Controller;           (* the closure of the bootstrap effect *)
  inflight : list Pending;            (* suspended loadShape invocations *)
  trace : list Effect                 (* the effects so far, oldest first *)
}.

Definition log (e : Effect) (st : State) : State :=
  mkState (shape st) (stats st) (loading st) (error st) (scene st)
    (pointsRef st) (disposed st) (next_id st) (orbit st) (inflight st)
    (trace st ++ [e]).

Definition setShape (s : string) (st : State) : State :=
  log (SetShape s)
    (mkState s (stats st) (loading st) (error st) (scene st) (pointsRef st)
       (disposed st) (next_id st) (orbit st) (inflight st) (trace st)).

Definition setStats (s : Json.value) (st : State) : State :=
  log (SetStats s)
    (mkState (shape st) s (loading st) (error st) (scene st)
       (pointsRef st) (disposed st) (next_id st) (orbit st) (inflight st)
       (trace st)).

Definition setLoading (b : bool) (st : State) : State :=
  log (SetLoading b)
    (mkState (shape st) (stats st) b (error st) (scene st) (pointsRef st)
       (disposed st) (next_id st) (orbit st) (inflight st) (trace st)).

Definition setError (e : option string) (st : State) : State :=
  log (SetError e)
    (mkState (shape st) (stats st) (loading st) e (scene st) (pointsRef st)
       (disposed st) (next_id st) (orbit st) (inflight st) (trace st)).

Definition with_scene (children : list Three.Object3D) (st : State) : State :=
  mkState (shape st) (stats st) (loading st) (error st) children
    (pointsRef st) (disposed st) (next_id st) (orbit st) (inflight st)
    (trace st).

Definition with_pointsRef (p : option Three.Points) (st : State) : State :=
  mkState (shape st) (stats st) (loading st) (error st) (scene st) p
    (disposed st) (next_id st) (orbit st) (inflight st) (trace st).

Definition with_disposed (ids : list nat) (st : State) : State :=
  mkState (shape st) (stats st) (loading st) (error st) (scene st)
    (pointsRef st) ids (next_id st) (orbit st) (inflight st) (trace st).

Definition with_next_id (n : nat) (st : State) : State :=
  mkState (shape st) (stats st) (loading st) (error st) (scene st)
    (pointsRef st) (disposed st) n (orbit st) (inflight st) (trace st).

Definition with_orbit (c : Orbit.Controller) (st : State) : State :=
  mkState (shape st) (stats st) (loading st) (error st) (scene st)
    (pointsRef st) (disposed st) (next_id st) c (inflight st) (trace st).

Definition with_inflight (l : list Pending) (st : State) : State :=
  mkState (shape st) (stats st) (loading st) (error st) (scene st)
    (pointsRef st) (disposed st) (next_id st) (orbit st) l (trace st).

(** *** Statements that can throw: a state monad with exceptions

    A computation returns the state it reached and [None] when it threw. *)
Definition M (A : Type) : Type := State -> State * option A.

#[local] Instance M_ret : MRet M := fun A (a : A) st => (st, Some a).

#[local] Instance M_bind : MBind M := fun A B (f : A -> M B) (m : M A) st =>
  match m st with
  | (st', Some a) => f a st'
  | (st', None) => (st', None)
  end.

Definition throw {A : Type} : M A := fun st => (st, None).

(** A statement that cannot throw. *)
Definition exec (f : State -> State) : M unit := fun st => (f st, Some tt).

Definition read {A : Type} (f : State -> A) : M A := fun st => (st, Some (f st)).

(** A pure evaluation that throws when it has no value. *)
Definition eval {A : Type} (v : option A) : M A :=
  match v with
  | Some a => mret a
  | None => throw
  end.

(** A new object identity. *)
Definition fresh : M nat := fun st => (with_next_id (S (next_id st)) st, Some (next_id st)).

Definition scene_remove (p : Three.Points) : M unit :=
  exec (fun st => log (SceneRemove (Three.points_id p))
                    (with_scene (Three.remove p (scene st)) st)).

Definition scene_add (p : Three.Points) : M unit :=
  exec (fun st => log (SceneAdd (Three.points_id p))
                    (with_scene (Three.add (Three.PointCloud p) (scene st)) st)).

Definition geometry_dispose (g : Three.BufferGeometry) : M unit :=
  exec (fun st => log (DisposeGeometry (Three.geometry_id g))
                    (with_disposed (disposed st ++ [Three.geometry_id g]) st)).

Definition material_dispose (m : Three.PointsMaterial) : M unit :=
  exec (fun st => log (DisposeMaterial (Three.material_id m))
                    (with_disposed (disposed st ++ [Three.material_id m]) st)).

Definition new_BufferGeometry : M Three.BufferGeometry :=
  id ← fresh;
  exec (log (NewGeometry id));;
  mret (Three.mkBufferGeometry id None).

(** [geometry.setAttribute("position", attribute)]. *)
Definition setPosition (a : Three.BufferAttribute) (g : Three.BufferGeometry)
  : Three.BufferGeometry :=
  Three.mkBufferGeometry (Three.geometry_id g) (Some a).

(** Lines 148-154. *)
Definition new_PointsMaterial (c : Three.Color) : M Three.PointsMaterial :=
  id ← fresh;
  exec (log (NewMaterial id));;
  mret (Three.mkPointsMaterial id c 0x1.89374bc6a7efap-7 true true 0.5).

Definition new_Points (g : Three.BufferGeometry) (m : Three.PointsMaterial)
  : M Three.Points :=
  id ← fresh;
  exec (log (NewPoints id));;
  mret (Three.mkPoints id g m).

Definition set_pointsRef (p : Three.Points) : M unit :=
  exec (fun st => log (SetPointsRef (Three.points_id p)) (with_pointsRef (Some p) st)).

Section Runtime.
Variable StringToNumber : string -> float.
Variable ObjectToNumber : Json.value -> option float.

(** Line 144: the position buffer. *)
Definition positions_of (rawPoints : Json.value) : option (list float) :=
  match Json.flatMap_points rawPoints with
  | Some elements => Json.Float32Array StringToNumber ObjectToNumber elements
  | None => None
  end.

(** Lines 133-158: the part of the [try] block after the two [await]s. *)
Definition update_scene (shapeName : string) (rawPoints statsData : Json.value)
  : M unit :=
  exec (setStats statsData);;
  current ← read pointsRef;
  match current with
  | Some old =>
      scene_remove old;;
      geometry_dispose (Three.geometry old);;
      material_dispose (Three.material old)
  | None => mret tt
  end;;
  geometry ← new_BufferGeometry;
  positions ← eval (positions_of rawPoints);
  let geometry := setPosition (Three.mkBufferAttribute positions 3) geometry in
  let color := Three.new_Color (color_argument shapeName) in
  material ← new_PointsMaterial color;
  points ← new_Points geometry material;
  scene_add points;;
  set_pointsRef points.

(** Lines 160-164: the [catch] clause and the [finally] clause. *)
Definition on_catch (st : State) : State := setError (Some backend_message) st.
Definition on_finally (st : State) : State := setLoading false st.

(** Lines 124-129: a call of [loadShape] runs up to its first [await]. *)
Definition loadShape (shapeName : string) (st : State) : State * Pending :=
  let st := setLoading true st in
  let st := setError None st in
  let st := log (Fetch (points_url shapeName)) st in
  (st, AwaitingPoints shapeName).

(** A suspended invocation continues when the promise it awaits settles;
    it either suspends again or completes. *)
Definition resume (p : Pending) (r : FetchResult) (st : State)
  : State * option Pending :=
  match p with
  | AwaitingPoints shapeName =>
      let st := log (Settled (points_url shapeName)) st in
      match then_json r with
      | None => (on_finally (on_catch st), None)
      | Some rawPoints =>
          (log (Fetch (stats_url shapeName)) st,
           Some (AwaitingStats shapeName rawPoints))
      end
  | AwaitingStats shapeName rawPoints =>
      let st := log (Settled (stats_url shapeName)) st in
      match then_json r with
      | None => (on_finally (on_catch st), None)
      | Some statsData =>
          match update_scene shapeName rawPoints statsData st with
          | (st', Some _) => (on_finally st', None)
          | (st', None) => (on_finally (on_catch st'), None)
          end
      end
  end.

(** One invocation followed alone from call to completion: the states at
    the call's return and after each settlement, with what is pending. *)
Definition run_alone (shapeName : string) (r1 r2 : FetchResult) (st : State)
  : list (State * option Pending) :=
  let '(st0, p0) := loadShape shapeName st in
  let '(st1, p1) := resume p0 r1 st0 in
  match p1 with
  | None => [(st0, Some p0); (st1, None)]
  | Some p =>
      let '(st2, p2) := resume p r2 st1 in
      [(st0, Some p0); (st1, p1); (st2, p2)]
  end.

(** The state an invocation leaves when it completes, followed alone. *)
Definition completed (shapeName : string) (r1 r2 : FetchResult) (st : State)
  : State :=
  match last (run_alone shapeName r1 r2 st) with
  | Some (st', _) => st'
  | None => st
  end.

(** The invocation ended in its [catch] clause. *)
Definition failed (shapeName : string) (r1 r2 : FetchResult) (st : State) : bool :=
  match error (completed shapeName r1 r2 st) with
  | Some _ => true
  | None => false
  end.

(** *** The controls of the side panel (lines 196-223) and the event loop *)

Inductive Control : Type :=
| ShapeButton (s : string)
| ReloadButton.

Record Button : Type := mkButton {
  control : Control;
  disabled : bool
}.

(** Line 226, [stats && (...)]: the truthiness of the stats. *)
Definition truthy (v : Json.value) : bool :=
  match v with
  | Json.Null => false
  | Json.Bool b => b
  | Json.Number n => negb (is_zero n || is_nan n)
  | Json.String s => negb (String.eqb s "")
  | Json.Array _ | Json.Object _ => true
  end.

(** Line 294, [{value}]: React renders a primitive (or nothing, for [null],
    [undefined] and booleans) and the elements of an array, and throws on a
    plain object. *)
Fixpoint valid_child (v : Json.value) : bool :=
  match v with
  | Json.Array items => forallb valid_child items
  | Json.Object _ => false
  | Json.Null | Json.Bool _ | Json.Number _ | Json.String _ => true
  end.

(** [o.key] where [o] is the outcome of an earlier read: a read of
    [undefined] throws, as one of [null] does. *)
Definition member (o : option (option Json.value)) (key : string)
  : option (option Json.value) :=
  match o with
  | Some (Some v) => Json.get v key
  | Some None | None => None
  end.

(** [o.toFixed(digits)] returns: only a number has the method. *)
Definition toFixed_returns (o : option (option Json.value)) : bool :=
  match o with
  | Some (Some (Json.Number _)) => true
  | _ => false
  end.

(** [o] can be passed as [value] to a [StatRow]. *)
Definition child_renders (o : option (option Json.value)) : bool :=
  match o with
  | Some (Some v) => valid_child v
  | Some None => true
  | None => false
  end.

(** Lines 226-249: the stats panel is evaluated without an exception.  It
    reads [point_count], and calls [toFixed] on [nearest_neighbor_avg] and
    on the [x], [y], [z] of [centroid], [bounding_box.dimensions] and
    [variance]. *)
Definition panel_renders (stats : Json.value) : bool :=
  if truthy stats then
    let s := Some (Some stats) in
    child_renders (member s "point_count")
    && toFixed_returns (member s "nearest_neighbor_avg")
    && forallb (fun key => toFixed_returns (member (member s "centroid") key))
         ["x"; "y"; "z"]%string
    && forallb (fun key => toFixed_returns
                  (member (member (member s "bounding_box") "dimensions") key))
         ["x"; "y"; "z"]%string
    && forallb (fun key => toFixed_returns (member (member s "variance") key))
         ["x"; "y"; "z"]%string
  else true.

Definition throws_when_rendered (e : Effect) : bool :=
  match e with
  | SetStats s => negb (panel_renders s)
  | _ => false
  end.

(** A render of the component has thrown.  The component is rendered after
    every update of its state, and an exception in a render makes React
    unmount it for good: this is the case when the stats, or the stats of
    an earlier [setStats], make the panel throw.  Invocations still in
    flight go on and call the setters, which then change nothing in the
    document; the fields of the state hold the arguments of these calls. *)
Definition crashed (st : State) : bool :=
  negb (panel_renders (stats st)) || existsb throws_when_rendered (trace st).

(** The buttons of one render, in document order; [None] when the
    component is no longer in the document. *)
Definition render (st : State) : option (list Button) :=
  if crashed st then None
  else Some (map (fun s => mkButton (ShapeButton s) false) SHAPES
             ++ [mkButton ReloadButton (loading st)]).

(** A call of [loadShape] from a handler: the invocation is left suspended. *)
Definition invoke (shapeName : string) (st : State) : State :=
  let '(st', p) := loadShape shapeName st in
  with_inflight (inflight st' ++ [p]) st'.

Definition onClick (c : Control) (st : State) : State :=
  match c with
  | ShapeButton s => invoke s (setShape s st)
  | ReloadButton => invoke (shape st) st
  end.

Definition same_control (c d : Control) : bool :=
  match c, d with
  | ShapeButton s, ShapeButton t => String.eqb s t
  | ReloadButton, ReloadButton => true
  | _, _ => false
  end.

(** A press on a control: its handler runs when the control is rendered
    and not disabled. *)
Definition press (c : Control) (st : State) : State :=
  match render st with
  | Some buttons =>
      match find (fun b => same_control (control b) c) buttons with
      | Some b => if disabled b then st else onClick c st
      | None => st
      end
  | None => st
  end.

(** The promise awaited by the [i]-th suspended invocation settles. *)
Definition settle (i : nat) (r : FetchResult) (st : State) : State :=
  match inflight st !! i with
  | None => st
  | Some p =>
      let '(st', next) := resume p r (with_inflight (delete i (inflight st)) st) in
      match next with
      | Some p' => with_inflight (inflight st' ++ [p']) st'
      | None => st'
      end
  end.

Section Pointer.
Variables Math_sin Math_cos : float -> float.

Inductive Event : Type :=
| Press (c : Control)
| Settle (i : nat) (r : FetchResult)
| Pointer (i : Orbit.Input).

Definition step (st : State) (e : Event) : State :=
  match e with
  | Press c => press c st
  | Settle i r => settle i r st
  | Pointer i => with_orbit (Orbit.handle Math_sin Math_cos (orbit st) i) st
  end.

Definition steps (st : State) (events : list Event) : State :=
  fold_left step events st.

End Pointer.

(** Lines 24-27, 51-59 and 167: the component after its first render and
    its two effects. *)
Definition unmounted : State :=
  mkState "sphere" Json.Null false None [Three.GridHelper; Three.AxesHelper] None
    [] 0 Orbit.initial [] [].

Definition mounted : State := invoke "sphere" unmounted.

End Runtime.

(** *** Vocabulary of the statements about [loadShape] *)

(** The render object lines 143-156 build for [shapeName] from a position
    buffer when [n] is the next free identity. *)
Definition built_points (shapeName : string) (positions : list float) (n : nat)
  : Three.Points :=
  Three.mkPoints (S (S n))
    (Three.mkBufferGeometry n (Some (Three.mkBufferAttribute positions 3)))
    (Three.mkPointsMaterial (S n) (Three.new_Color (color_argument shapeName))
       0x1.89374bc6a7efap-7 true true 0.5).

(** The graphics resources of a render object. *)
Definition resources (current : option Three.Points) : list nat :=
  match current with
  | Some old => [Three.geometry_id (Three.geometry old);
                 Three.material_id (Three.material old)]
  | None => []
  end.

(** The scene without the current render object. *)
Definition scene_without (current : option Three.Points)
    (children : list Three.Object3D) : list Three.Object3D :=
  match current with
  | Some old => Three.remove old children
  | None => children
  end.

(** The effects of lines 137-141 on the current render object. *)
Definition release_effects (current : option Three.Points) : list Effect :=
  match current with
  | Some old => [SceneRemove (Three.points_id old);
                 DisposeGeometry (Three.geometry_id (Three.geometry old));
                 DisposeMaterial (Three.material_id (Three.material old))]
  | None => []
  end.

(** The effects of lines 143-158 when [n] is the next free identity. *)
Definition build_effects (n : nat) : list Effect :=
  [NewGeometry n; NewMaterial (S n); NewPoints (S (S n));
   SceneAdd (S (S n)); SetPointsRef (S (S n))].

Definition is_done (p : option Pending) : bool :=
  match p with
  | None => true
  | Some _ => false
  end.

End Store.

(** ** Sample inputs for the examples *)

Module Samples.

(** Two points as the backend serves them. *)
Definition two_points : Json.value :=
  Json.Array [Json.point Num.lit_0_1 0.5 1; Json.point 2 3 4].

(** A statistics record abridged to its first two fields; the stats panel
    reads more than these. *)
Definition some_stats : Json.value :=
  Json.Object [("point_count"%string, Json.Number 2);
               ("nearest_neighbor_avg"%string, Json.Number 0.5)].

(** A statistics record with every field the stats panel reads. *)
Definition stats_with (point_count : float) : Json.value :=
  Json.Object [("point_count"%string, Json.Number point_count);
               ("nearest_neighbor_avg"%string, Json.Number 4.5);
               ("centroid"%string, Json.point 1 1.75 2.5);
               ("bounding_box"%string,
                Json.Object [("dimensions"%string, Json.point 2 2.5 3)]);
               ("variance"%string, Json.point 1 1.5 2.25)].

Definition full_stats : Json.value := stats_with 2.

Definition ok (body : Json.value) : Store.FetchResult :=
  Store.Response 200 (Some body).

(** The body FastAPI sends with a 404 status. *)
Definition error_body : Json.value :=
  Json.Object [("detail"%string, Json.String "Not Found")].

Definition not_found : Store.FetchResult :=
  Store.Response 404 (Some error_body).

(** A response whose body is not JSON, such as an HTML error page. *)
Definition html_page : Store.FetchResult := Store.Response 500 None.

(** A press at the origin followed by a long drag downwards. *)
Definition drag_down : list Orbit.Input :=
  [Orbit.MouseDown 0 0; Orbit.MouseMove 0 1000].

(** Stand-ins for the functions of the engine, for the examples that must
    fix them; no example depends on the values they return. *)
Definition any_function : float -> float := fun a => a.
Definition any_StringToNumber : string -> float := fun _ => nan.
Definition any_ObjectToNumber : Json.value -> option float := fun _ => Some nan.

End Samples.

(** ** Vocabulary of the statements about the running viewer *)

Module Session.

(** The point clouds among the children of the scene. *)
Definition clouds (children : list Three.Object3D) : list Three.Points :=
  flat_map (fun o => match o with Three.PointCloud p => [p] | _ => [] end) children.

(** The shape a suspended invocation was called with. *)
Definition pending_name (p : Store.Pending) : string :=
  match p with
  | Store.AwaitingPoints shapeName => shapeName
  | Store.AwaitingStats shapeName _ => shapeName
  end.

(** The geometries and materials the first [n] loads of a session build,
    when every load succeeds: load [k] takes the identities [3k], [3k+1]
    (and [3k+2] for its render object). *)
Definition resources_of_loads (n : nat) : list nat :=
  flat_map (fun k => [3 * k; 3 * k + 1]%nat) (seq 0 n).

(** What the store keeps at every moment of a session: identities are
    handed out in increasing order, and the scene holds at most one point
    cloud, which is then the current render object and holds resources that
    have not been disposed. *)
Definition tidy (st : Store.State) : Prop :=
  (forall i : nat, i ∈ Store.disposed st -> (i < Store.next_id st)%nat) /\
  (forall p : Three.Points, Store.pointsRef st = Some p ->
     (Three.geometry_id (Three.geometry p) < Store.next_id st)%nat /\
     (Three.material_id (Three.material p) < Store.next_id st)%nat) /\
  (clouds (Store.scene st) = [] \/
   exists p : Three.Points,
     clouds (Store.scene st) = [p] /\ Store.pointsRef st = Some p /\
     (Three.geometry_id (Three.geometry p) ∉ Store.disposed st) /\
     (Three.material_id (Three.material p) ∉ Store.disposed st)).

(** The URLs requested so far. *)
Definition requested (effects : list Store.Effect) : list string :=
  flat_map (fun e => match e with Store.Fetch url => [url] | _ => [] end) effects.

(** The two resources of each shape of the enumeration. *)
Definition known_urls : list string :=
  flat_map (fun s => [Store.points_url s; Store.stats_url s]) Store.SHAPES.

(** The selection and every suspended invocation name a shape of the
    enumeration. *)
Definition enumerated (st : Store.State) : Prop :=
  Store.shape st ∈ Store.SHAPES /\
  Forall (fun p => pending_name p ∈ Store.SHAPES) (Store.inflight st).

(** The viewer has asked for nothing but the enumerated shapes. *)
Definition only_known (st : Store.State) : Prop :=
  enumerated st /\
  Forall (fun url => url ∈ known_urls) (requested (Store.trace st)).


(** Invocations of [loadShape] run one after the other, each followed from
    its call to its completion: the name and the two responses of each. *)
Definition Load : Type := string * Store.FetchResult * Store.FetchResult.

Section Runtime.
Variable StringToNumber : string -> float.
Variable ObjectToNumber : Json.value -> option float.

Definition load_one (st : Store.State) (l : Load) : Store.State :=
  Store.completed StringToNumber ObjectToNumber l.1.1 l.1.2 l.2 st.

Definition load_all (st : Store.State) (loads : list Load) : Store.State :=
  fold_left load_one loads st.

(** Both bodies parse and the position buffer can be built. *)
Definition succeeds (l : Load) : Prop :=
  exists rawPoints statsData positions,
    Store.then_json l.1.2 = Some rawPoints /\
    Store.then_json l.2 = Some statsData /\
    Store.positions_of StringToNumber ObjectToNumber rawPoints = Some positions.

End Runtime.

End Session.

(** ** Vocabulary of the statements about gestures *)

Module Gestures.

Definition is_wheel (i : Orbit.Input) : bool :=
  match i with
  | Orbit.Wheel _ => true
  | _ => false
  end.

(** A pointer move or a release: the inputs that do nothing outside a drag. *)
Definition is_move_or_release (i : Orbit.Input) : bool :=
  match i with
  | Orbit.MouseMove _ _ | Orbit.MouseUp => true
  | _ => false
  end.

(** The part of the controller the pointer handlers read and write. *)
Definition same_drag (c c' : Orbit.Controller) : Prop :=
  Orbit.isDragging c = Orbit.isDragging c' /\
  Orbit.prevMouse c = Orbit.prevMouse c' /\
  Orbit.theta c = Orbit.theta c' /\
  Orbit.phi c = Orbit.phi c'.

End Gestures.

(** ** The bootstrap effect and its teardown (App.jsx, lines 30-122)

    The effect registers five listeners, attaches the canvas of the
    renderer, starts the render loop and returns the function that undoes
    all of it.  The page is modelled by what the effect touches: the
    listeners on the viewport element and on the window, the animation
    frame requests that are pending, and the canvas. *)

Module Viewport.

Inductive Target : Type :=
| Element   (* el, the viewport *)
| Window.

(** The five closures of the effect. *)
Inductive Handler : Type :=
| OnMouseDown
| OnMouseUp
| OnMouseMove
| OnWheel
| OnResize.

Record Listener : Type := mkListener {
  target : Target;
  type : string;
  handler : Handler
}.

Definition same_target (a b : Target) : bool :=
  match a, b with
  | Element, Element | Window, Window => true
  | _, _ => false
  end.

Definition same_handler (a b : Handler) : bool :=
  match a, b with
  | OnMouseDown, OnMouseDown | OnMouseUp, OnMouseUp
  | OnMouseMove, OnMouseMove | OnWheel, OnWheel | OnResize, OnResize => true
  | _, _ => false
  end.

(** Listeners are identified by target, type and callback. *)
Definition same_listener (a b : Listener) : bool :=
  same_target (target a) (target b) && String.eqb (type a) (type b)
  && same_handler (handler a) (handler b).

Record State : Type := mkState {
  listeners : list Listener;      (* registered on el and on window *)
  canvas_attached : bool;         (* renderer.domElement is a child of el *)
  renderer_disposed : bool;
  aspect : float;                 (* camera.aspect *)
  size : float * float;           (* the size given to renderer.setSize *)
  controller : Orbit.Controller;
  scheduled : list nat;           (* animation frame requests pending *)
  frameRef : option nat;          (* frameRef.current *)
  next_request : nat;             (* handles handed out so far *)
  rendered : nat                  (* calls of renderer.render so far *)
}.

(** [target.addEventListener(type, handler)]: a listener that is already
    registered is not registered twice. *)
Definition addEventListener (l : Listener) (st : State) : State :=
  mkState
    (if existsb (same_listener l) (listeners st) then listeners st
     else listeners st ++ [l])
    (canvas_attached st) (renderer_disposed st) (aspect st) (size st)
    (controller st) (scheduled st) (frameRef st) (next_request st) (rendered st).

(** [target.removeEventListener(type, handler)]. *)
Definition removeEventListener (l : Listener) (st : State) : State :=
  mkState
    (List.filter (fun l' => negb (same_listener l l')) (listeners st))
    (canvas_attached st) (renderer_disposed st) (aspect st) (size st)
    (controller st) (scheduled st) (frameRef st) (next_request st) (rendered st).

Definition registered (l : Listener) (st : State) : bool :=
  existsb (same_listener l) (listeners st).

Definition mousedown : Listener := mkListener Element "mousedown" OnMouseDown.
Definition mouseup : Listener := mkListener Window "mouseup" OnMouseUp.
Definition mousemove : Listener := mkListener Window "mousemove" OnMouseMove.
Definition wheel : Listener := mkListener Element "wheel" OnWheel.
Definition resize : Listener := mkListener Window "resize" OnResize.

(** Lines 94-100, [animate]: request the next frame, record the handle in
    [frameRef], render. *)
Definition animate (st : State) : State :=
  mkState (listeners st) (canvas_attached st) (renderer_disposed st)
    (aspect st) (size st) (controller st)
    (scheduled st ++ [next_request st])
    (Some (next_request st))
    (S (next_request st))
    (S (rendered st)).

(** The platform runs the callbacks of the requests that are pending; each
    of them is [animate].  Requests made meanwhile wait for the next frame. *)
Definition frame (st : State) : State :=
  fold_left (fun s _ => animate s) (scheduled st)
    (mkState (listeners st) (canvas_attached st) (renderer_disposed st)
       (aspect st) (size st) (controller st) [] (frameRef st)
       (next_request st) (rendered st)).

(** [cancelAnimationFrame(handle)]; the handle may be [null]. *)
Definition cancelAnimationFrame (h : option nat) (st : State) : State :=
  mkState (listeners st) (canvas_attached st) (renderer_disposed st)
    (aspect st) (size st) (controller st)
    (match h with
     | Some id => List.filter (fun id' => negb (Nat.eqb id id')) (scheduled st)
     | None => scheduled st
     end)
    (frameRef st) (next_request st) (rendered st).

(** Lines 104-109, [onResize]. *)
Definition onResize (clientWidth clientHeight : float) (st : State) : State :=
  mkState (listeners st) (canvas_attached st) (renderer_disposed st)
    (clientWidth / clientHeight) (clientWidth, clientHeight)
    (controller st) (scheduled st) (frameRef st) (next_request st) (rendered st).

(** Lines 31-110: the body of the effect, for a viewport of the given size. *)
Definition bootstrap (clientWidth clientHeight : float) (st : State) : State :=
  let st :=
    mkState (listeners st) true false
      (clientWidth / clientHeight) (clientWidth, clientHeight)
      Orbit.initial (scheduled st) (frameRef st) (next_request st) (rendered st) in
  let st := addEventListener mousedown st in
  let st := addEventListener mouseup st in
  let st := addEventListener mousemove st in
  let st := addEventListener wheel st in
  let st := animate st in
  addEventListener resize st.

(** Lines 112-121: the function the effect returns. *)
Definition cleanup (st : State) : State :=
  let st := cancelAnimationFrame (frameRef st) st in
  let st :=
    mkState (listeners st) false true (aspect st) (size st) (controller st)
      (scheduled st) (frameRef st) (next_request st) (rendered st) in
  let st := removeEventListener mousedown st in
  let st := removeEventListener mouseup st in
  let st := removeEventListener mousemove st in
  let st := removeEventListener wheel st in
  removeEventListener resize st.

(** What reaches the page: pointer and wheel input, a change of the size
    of the viewport, an animation frame. *)
Inductive Event : Type :=
| Input (i : Orbit.Input)
| Resize (clientWidth clientHeight : float)
| Frame.

(** The listener an input is delivered to. *)
Definition listener_of (i : Orbit.Input) : Listener :=
  match i with
  | Orbit.MouseDown _ _ => mousedown
  | Orbit.MouseUp => mouseup
  | Orbit.MouseMove _ _ => mousemove
  | Orbit.Wheel _ => wheel
  end.

Section Trigonometry.
Variables Math_sin Math_cos : float -> float.

Definition dispatch (st : State) (e : Event) : State :=
  match e with
  | Input i =>
      if registered (listener_of i) st then
        mkState (listeners st) (canvas_attached st) (renderer_disposed st)
          (aspect st) (size st)
          (Orbit.handle Math_sin Math_cos (controller st) i)
          (scheduled st) (frameRef st) (next_request st) (rendered st)
      else st
  | Resize w h => if registered resize st then onResize w h st else st
  | Frame => frame st
  end.

Definition run (st : State) (events : list Event) : State :=
  fold_left dispatch events st.

End Trigonometry.

(** The page before the component is mounted. *)
Definition blank : State :=
  mkState [] false false 0 (0, 0) Orbit.initial [] None 0 0.

Definition is_frame (e : Event) : bool :=
  match e with
  | Frame => true
  | _ => false
  end.

(** What the effect keeps while the component is mounted: its five
    listeners are registered and exactly one frame request is pending,
    the one [frameRef] holds. *)
Definition mounted (st : State) : Prop :=
  listeners st = [mousedown; mouseup; mousemove; wheel; resize] /\
  exists id : nat, scheduled st = [id] /\ frameRef st = Some id /\
                   next_request st = S id.

End Viewport.

(** ** Vocabulary of the statements about malformed points *)

Module Coordinates.

(** An element of the points array that is not [null] and whose [x], [y]
    and [z], where it has them, are numbers.  Elements that are no objects
    at all (numbers, strings, booleans, arrays) qualify: they have none. *)
Definition simple (p : Json.value) : Prop :=
  p <> Json.Null /\
  forall (key : string) (v : Json.value),
    key ∈ ["x"; "y"; "z"]%string ->
    Json.get p key = Some (Some v) -> exists n : float, v = Json.Number n.

(** What the buffer holds for the coordinate [key] of a simple element. *)
Definition stored (p : Json.value) (key : string) : float :=
  match Json.get p key with
  | Some (Some (Json.Number n)) => Json.fround n
  | _ => nan
  end.

End Coordinates.

(** * Theorems *)

(** ** Facts about binary64 arithmetic

    Derived from the specification of the primitive operations
    ([FloatAxioms]): none of the roundings produces a NaN, and the
    comparisons behave as an order on the values that are not NaN. *)

Module FloatFacts.

Section Rounding.
Variables prec emax : Z.

Lemma shr_1_nonneg (mrs : shr_record) :
  (0 <= shr_m mrs)%Z -> (0 <= shr_m (shr_1 mrs))%Z.
Proof.
  destruct mrs as [m r s]; simpl.
  destruct m as [|p|p]; [simpl; lia| |lia].
  intros _. destruct p; simpl; lia.
Qed.

Lemma iter_shr_1_nonneg (p : positive) : forall mrs : shr_record,
  (0 <= shr_m mrs)%Z -> (0 <= shr_m (SpecFloat.iter_pos shr_1 p mrs))%Z.
Proof.
  induction p as [p IH|p IH|]; intros mrs H; simpl.
  - apply IH, IH, shr_1_nonneg, H.
  - apply IH, IH, H.
  - apply shr_1_nonneg, H.
Qed.

Lemma shr_fexp_nonneg (m e : Z) (l : location) :
  (0 <= m)%Z -> (0 <= shr_m (fst (shr_fexp prec emax m e l)))%Z.
Proof.
  intros H. unfold shr_fexp, shr.
  assert (H0 : (0 <= shr_m (shr_record_of_loc m l))%Z).
  { destruct l as [|[]]; simpl; exact H. }
  destruct (fexp prec emax (Zdigits2 m + e) - e)%Z; simpl; auto.
  apply iter_shr_1_nonneg, H0.
Qed.

Lemma round_nearest_even_nonneg (m : Z) (l : location) :
  (0 <= m)%Z -> (0 <= round_nearest_even m l)%Z.
Proof.
  intros H. destruct l as [|[]]; simpl; try lia.
  destruct (Z.even m); lia.
Qed.

Lemma binary_round_aux_not_nan (sx : bool) (mx ex : Z) (lx : location) :
  (0 <= mx)%Z -> binary_round_aux prec emax sx mx ex lx <> S754_nan.
Proof.
  intros H. unfold binary_round_aux.
  pose proof (shr_fexp_nonneg mx ex lx H) as H1.
  destruct (shr_fexp prec emax mx ex lx) as [mrs' e']. simpl in H1.
  pose proof (shr_fexp_nonneg _ e' loc_Exact
                (round_nearest_even_nonneg _ (loc_of_shr_record mrs') H1)) as H2.
  destruct (shr_fexp prec emax _ e' loc_Exact) as [mrs'' e'']. simpl in H2.
  destruct (shr_m mrs'') as [|p|p]; [discriminate| |lia].
  destruct (Z.leb e'' (emax - prec)); discriminate.
Qed.

Lemma binary_round_not_nan (sx : bool) (mx : positive) (ex : Z) :
  binary_round prec emax sx mx ex <> S754_nan.
Proof.
  unfold binary_round. destruct (shl_align _ _ _) as [mz ez].
  apply binary_round_aux_not_nan. lia.
Qed.

Lemma binary_normalize_not_nan (m e : Z) (szero : bool) :
  binary_normalize prec emax m e szero <> S754_nan.
Proof.
  destruct m; simpl; [discriminate| |]; apply binary_round_not_nan.
Qed.
End Rounding.

Lemma SFsub_not_nan (x y : spec_float) :
  Num.sf_finite x = true -> Num.sf_finite y = true -> SF64sub x y <> S754_nan.
Proof.
  destruct x as [sx|sx| |sx mx ex], y as [sy|sy| |sy my ey];
    try discriminate; intros _ _; unfold SF64sub, SFsub.
  - destruct sx, sy; discriminate.
  - apply binary_normalize_not_nan.
Qed.

Lemma SFmul_finite_not_nan (x : spec_float) (sy : bool) (my : positive) (ey : Z) :
  x <> S754_nan -> SF64mul x (S754_finite sy my ey) <> S754_nan.
Proof.
  destruct x as [sx|sx| |sx mx ex]; intros H; try congruence;
    unfold SF64mul, SFmul; try discriminate.
  apply binary_round_aux_not_nan. lia.
Qed.

Lemma SFadd_finite_not_nan (x y : spec_float) :
  Num.sf_finite x = true -> y <> S754_nan -> SF64add x y <> S754_nan.
Proof.
  destruct x as [sx|sx| |sx mx ex], y as [sy|sy| |sy my ey];
    try discriminate; intros _ H; try congruence; unfold SF64add, SFadd;
    try discriminate.
  - destruct sx, sy; discriminate.
  - apply binary_normalize_not_nan.
Qed.

Lemma SFcompare_refl (x : spec_float) :
  x <> S754_nan -> SFcompare x x = Some Eq.
Proof.
  destruct x as [s|s| |s m e]; intros H; try congruence; cbn [SFcompare].
  - reflexivity.
  - destruct s; reflexivity.
  - rewrite Z.compare_refl.
    change (Pos.compare_cont Eq m m) with (Pos.compare m m).
    rewrite Pos.compare_refl. destruct s; reflexivity.
Qed.

Lemma is_nan_spec (x : float) : is_nan x = false <-> Prim2SF x <> S754_nan.
Proof.
  unfold is_nan. rewrite FloatAxioms.eqb_spec. unfold SFeqb. split.
  - intros H E. rewrite E in H. discriminate.
  - intros H. rewrite SFcompare_refl by exact H. reflexivity.
Qed.

Lemma is_finite_spec (x : float) :
  is_finite x = true <-> Num.sf_finite (Prim2SF x) = true.
Proof.
  unfold is_finite, is_nan, is_infinity.
  rewrite !FloatAxioms.eqb_spec, FloatAxioms.abs_spec. unfold SFeqb.
  change (Prim2SF infinity) with (S754_infinity false).
  destruct (Prim2SF x) as [s|s| |s m e]; cbn [SFcompare SFabs Num.sf_finite].
  - simpl; tauto.
  - destruct s; simpl; split; discriminate.
  - simpl; split; discriminate.
  - rewrite Z.compare_refl.
    change (Pos.compare_cont Eq m m) with (Pos.compare m m).
    rewrite Pos.compare_refl. destruct s; simpl; tauto.
Qed.

Lemma is_finite_not_nan (x : float) : is_finite x = true -> is_nan x = false.
Proof.
  rewrite is_finite_spec, is_nan_spec. intros H E. rewrite E in H. discriminate.
Qed.

Lemma ltb_leb (a b : float) : (a <? b) = true -> (a <=? b) = true.
Proof.
  rewrite FloatAxioms.ltb_spec, FloatAxioms.leb_spec. unfold SFltb, SFleb.
  destruct (SFcompare (Prim2SF a) (Prim2SF b)) as [[]|]; congruence.
Qed.

Lemma leb_not_nan_r (a b : float) : (a <=? b) = true -> is_nan b = false.
Proof.
  rewrite FloatAxioms.leb_spec, is_nan_spec. unfold SFleb. intros H E. rewrite E in H.
  destruct (Prim2SF a); discriminate.
Qed.

(** A value between two finite values is finite. *)
Lemma between_finite (lo hi x : float) :
  is_finite lo = true -> is_finite hi = true ->
  Num.between lo hi x = true -> is_finite x = true.
Proof.
  rewrite !is_finite_spec. unfold Num.between. rewrite !FloatAxioms.leb_spec.
  intros Hlo Hhi H. apply andb_prop in H. destruct H as [H1 H2].
  unfold SFleb in *.
  destruct (Prim2SF lo) as [s1|s1| |s1 m1 e1]; try discriminate;
    destruct (Prim2SF hi) as [s2|s2| |s2 m2 e2]; try discriminate;
    destruct (Prim2SF x) as [s|s| |s m e]; try reflexivity;
    try discriminate; destruct s; simpl in *; discriminate.
Qed.

Lemma sub_not_nan (a b : float) :
  is_finite a = true -> is_finite b = true -> is_nan (a - b) = false.
Proof.
  rewrite !is_finite_spec, is_nan_spec, FloatAxioms.sub_spec. apply SFsub_not_nan.
Qed.

Lemma mul_finite_not_nan (a k : float) :
  is_nan a = false -> is_finite k = true -> is_zero k = false ->
  is_nan (a * k) = false.
Proof.
  rewrite !is_nan_spec, is_finite_spec, FloatAxioms.mul_spec.
  unfold is_zero. rewrite FloatAxioms.eqb_spec.
  change (Prim2SF PrimFloat.zero) with (S754_zero false).
  intros Ha Hk Hz.
  destruct (Prim2SF k) as [s|s| |s m e]; try discriminate.
  apply SFmul_finite_not_nan, Ha.
Qed.

Lemma add_finite_not_nan (a b : float) :
  is_finite a = true -> is_nan b = false -> is_nan (a + b) = false.
Proof.
  rewrite is_finite_spec, !is_nan_spec, FloatAxioms.add_spec. apply SFadd_finite_not_nan.
Qed.

Lemma SFcompare_antisym (x y : spec_float) :
  SFcompare y x = option_map CompOpp (SFcompare x y).
Proof.
  destruct x as [sx|sx| |sx mx ex], y as [sy|sy| |sy my ey];
    cbn [SFcompare option_map]; try reflexivity;
    try (destruct sx; reflexivity); try (destruct sy; reflexivity);
    try (destruct sx, sy; reflexivity).
  rewrite (Z.compare_antisym ex ey).
  change (Pos.compare_cont Eq my mx) with (Pos.compare my mx).
  change (Pos.compare_cont Eq mx my) with (Pos.compare mx my).
  rewrite (Pos.compare_antisym mx my).
  destruct sx, sy; try reflexivity;
    destruct (Z.compare ex ey); cbn [CompOpp]; try reflexivity;
    destruct (Pos.compare mx my); reflexivity.
Qed.

Lemma SFcompare_some (x y : spec_float) :
  x <> S754_nan -> y <> S754_nan -> exists c, SFcompare x y = Some c.
Proof.
  destruct x as [sx|sx| |sx mx ex], y as [sy|sy| |sy my ey];
    intros Hx Hy; try congruence; cbn [SFcompare]; eauto.
Qed.

(** Among numbers, [a < b] failing means [b <= a]. *)
Lemma ltb_false_leb (a b : float) :
  is_nan a = false -> is_nan b = false -> (a <? b) = false -> (b <=? a) = true.
Proof.
  rewrite !is_nan_spec, FloatAxioms.ltb_spec, FloatAxioms.leb_spec.
  unfold SFltb, SFleb. intros Ha Hb.
  rewrite (SFcompare_antisym (Prim2SF a) (Prim2SF b)).
  destruct (SFcompare_some _ _ Ha Hb) as [c ->].
  destruct c; cbn; congruence.
Qed.

Lemma ltb_asym (a b : float) : (a <? b) = true -> (b <? a) = false.
Proof.
  rewrite !FloatAxioms.ltb_spec. unfold SFltb.
  rewrite (SFcompare_antisym (Prim2SF a) (Prim2SF b)).
  destruct (SFcompare (Prim2SF a) (Prim2SF b)) as [[]|]; cbn; congruence.
Qed.

Lemma ltb_not_nan (a b : float) :
  (a <? b) = true -> is_nan a = false /\ is_nan b = false.
Proof.
  rewrite !is_nan_spec, FloatAxioms.ltb_spec. unfold SFltb. intros H.
  split; intros E; rewrite E in H.
  - discriminate.
  - destruct (Prim2SF a); discriminate.
Qed.

Lemma leb_refl (a : float) : is_nan a = false -> (a <=? a) = true.
Proof.
  rewrite is_nan_spec, FloatAxioms.leb_spec. unfold SFleb. intros H.
  rewrite SFcompare_refl by exact H. reflexivity.
Qed.

Lemma leb_not_nan_l (a b : float) : (a <=? b) = true -> is_nan a = false.
Proof.
  rewrite FloatAxioms.leb_spec, is_nan_spec. unfold SFleb. intros H E.
  rewrite E in H. discriminate.
Qed.

(** [Math.min] of two numbers is one of them and is at most the first. *)
Lemma Math_min_spec (hi s : float) :
  is_nan hi = false -> is_nan s = false ->
  (Num.Math_min hi s = hi \/ Num.Math_min hi s = s) /\
  (Num.Math_min hi s <=? hi) = true.
Proof.
  intros Hhi Hs. unfold Num.Math_min. rewrite Hhi, Hs. cbn [orb].
  destruct (hi <? s) eqn:E1.
  - split; [now left | now apply leb_refl].
  - destruct (s <? hi) eqn:E2.
    + split; [now right | now apply ltb_leb].
    + destruct (Num.is_neg_zero s).
      * split; [now right | now apply ltb_false_leb].
      * split; [now left | now apply leb_refl].
Qed.

(** The clamp of lines 74 and 84 puts every number between its bounds. *)
Lemma clamp_between (lo hi s : float) :
  (lo <=? hi) = true -> is_nan s = false ->
  Num.between lo hi (Num.Math_max lo (Num.Math_min hi s)) = true.
Proof.
  intros Hle Hs.
  pose proof (leb_not_nan_l _ _ Hle) as Hlo.
  pose proof (leb_not_nan_r _ _ Hle) as Hhi.
  destruct (Math_min_spec hi s Hhi Hs) as [Hm Hmhi].
  set (m := Num.Math_min hi s) in *.
  assert (Hmn : is_nan m = false) by (destruct Hm as [-> | ->]; assumption).
  unfold Num.between, Num.Math_max. rewrite Hlo, Hmn. cbn [orb].
  destruct (lo <? m) eqn:E1.
  - rewrite (ltb_leb _ _ E1), Hmhi. reflexivity.
  - destruct (m <? lo) eqn:E2.
    + rewrite (leb_refl _ Hlo), Hle. reflexivity.
    + destruct (Num.is_neg_zero lo).
      * rewrite (ltb_false_leb _ _ Hmn Hlo E2), Hmhi. reflexivity.
      * rewrite (leb_refl _ Hlo), Hle. reflexivity.
Qed.

(** Strictly inside the bounds the clamp changes nothing. *)
Lemma clamp_inside (lo hi s : float) :
  Num.strictly_between lo hi s = true ->
  Num.Math_max lo (Num.Math_min hi s) = s.
Proof.
  unfold Num.strictly_between. intros H.
  apply andb_prop in H. destruct H as [H1 H2].
  destruct (ltb_not_nan _ _ H1) as [Hlo Hs].
  destruct (ltb_not_nan _ _ H2) as [_ Hhi].
  unfold Num.Math_min. rewrite Hhi, Hs. cbn [orb].
  rewrite (ltb_asym _ _ H2), H2.
  unfold Num.Math_max. rewrite Hlo, Hs. cbn [orb].
  rewrite H1. reflexivity.
Qed.

End FloatFacts.

(** ** The orbit camera controller *)

Module OrbitFacts.
Import Orbit.

Lemma initial_invariant : invariant initial.
Proof. repeat split; vm_compute; reflexivity. Qed.

(** The sum that a clamp receives is a number whenever the event is. *)
Lemma scaled_step_not_nan (lo hi v d k : float) :
  is_finite lo = true -> is_finite hi = true ->
  Num.between lo hi v = true ->
  is_nan d = false -> is_finite k = true -> is_zero k = false ->
  is_nan (v + d * k) = false.
Proof.
  intros Hlo Hhi Hv Hd Hk Hz.
  apply FloatFacts.add_finite_not_nan.
  - exact (FloatFacts.between_finite lo hi v Hlo Hhi Hv).
  - apply FloatFacts.mul_finite_not_nan; assumption.
Qed.

Section Trigonometry.
Variables Math_sin Math_cos : float -> float.

Lemma onMouseMove_invariant (cx cy : float) (c : Controller) :
  is_finite cx = true -> is_finite cy = true ->
  invariant c -> invariant (onMouseMove Math_sin Math_cos cx cy c).
Proof.
  intros Hx Hy (Hpx & Hpy & Hphi & Hr). unfold onMouseMove.
  destruct (isDragging c); cbn [negb]; [|repeat split; assumption].
  repeat split; cbn [prevMouse phi radius fst snd]; try assumption.
  apply FloatFacts.clamp_between; [vm_compute; reflexivity|].
  apply (scaled_step_not_nan phi_min phi_max); try assumption;
    try (vm_compute; reflexivity).
  apply FloatFacts.sub_not_nan; assumption.
Qed.

Lemma onWheel_invariant (d : float) (c : Controller) :
  is_finite d = true ->
  invariant c -> invariant (onWheel d c).
Proof.
  intros Hd (Hpx & Hpy & Hphi & Hr). unfold onWheel.
  repeat split; cbn [prevMouse phi radius fst snd]; try assumption.
  apply FloatFacts.clamp_between; [vm_compute; reflexivity|].
  apply (scaled_step_not_nan radius_min radius_max); try assumption;
    try (vm_compute; reflexivity).
  apply FloatFacts.is_finite_not_nan, Hd.
Qed.

Lemma handle_invariant (c : Controller) (i : Input) :
  well_formed i = true -> invariant c ->
  invariant (handle Math_sin Math_cos c i).
Proof.
  destruct i as [cx cy| |cx cy|d]; cbn [well_formed handle]; intros Hw Hc.
  - apply andb_prop in Hw. destruct Hw as [Hx Hy].
    destruct Hc as (_ & _ & Hphi & Hr). repeat split; assumption.
  - exact Hc.
  - apply andb_prop in Hw. destruct Hw as [Hx Hy].
    apply onMouseMove_invariant; assumption.
  - apply onWheel_invariant; assumption.
Qed.

Lemma run_invariant (inputs : list Input) : forall c : Controller,
  forallb well_formed inputs = true -> invariant c ->
  invariant (run Math_sin Math_cos c inputs).
Proof.
  induction inputs as [|i inputs IH]; intros c Hw Hc; [exact Hc|].
  cbn [forallb] in Hw. apply andb_prop in Hw. destruct Hw as [Hi Hw].
  unfold run. cbn [fold_left]. apply IH; [exact Hw|].
  apply handle_invariant; assumption.
Qed.

(** C2 (as the code has it): after any sequence of pointer and wheel
    events with finite coordinates, from the state the viewer starts in,
    the polar angle is in the closed interval from 0.1 to [Math.PI - 0.1]
    and the radius is in the closed interval from 1.2 to 8. *)
Theorem clamped_after_any_inputs (inputs : list Input) :
  forallb well_formed inputs = true ->
  Num.between phi_min phi_max (phi (run Math_sin Math_cos initial inputs)) = true /\
  Num.between radius_min radius_max (radius (run Math_sin Math_cos initial inputs)) = true.
Proof.
  intros Hw.
  destruct (run_invariant inputs initial Hw initial_invariant) as (_ & _ & Hphi & Hr).
  split; assumption.
Qed.

(** C7 (as the code has it): a pointer move while dragging subtracts the
    sensitivity constant times [dx] from the azimuth, adds the same constant
    times [dy] to the polar angle and clamps the sum to the closed interval
    from 0.1 to [Math.PI - 0.1], places
    the camera at the point of the sphere of the current radius at the new
    angles, and aims it at the origin. *)
Theorem drag_move_updates_camera (clientX clientY : float) (c : Controller) :
  isDragging c = true ->
  let dx := clientX - fst (prevMouse c) in
  let dy := clientY - snd (prevMouse c) in
  let c' := onMouseMove Math_sin Math_cos clientX clientY c in
  theta c' = theta c - dx * sensitivity /\
  phi c' = Num.Math_max phi_min (Num.Math_min phi_max (phi c + dy * sensitivity)) /\
  (Num.strictly_between phi_min phi_max (phi c + dy * sensitivity) = true ->
   phi c' = phi c + dy * sensitivity) /\
  (is_nan (phi c + dy * sensitivity) = false ->
   Num.between phi_min phi_max (phi c') = true) /\
  position (camera c') =
    Vector3.mk (radius c * Math_sin (phi c') * Math_sin (theta c'))
               (radius c * Math_cos (phi c'))
               (radius c * Math_sin (phi c') * Math_cos (theta c')) /\
  orientation (camera c') = LookAt (position (camera c')) Vector3.origin /\
  radius c' = radius c /\
  prevMouse c' = (clientX, clientY) /\
  isDragging c' = true.
Proof.
  intros Hd dx dy c'. subst c'. unfold onMouseMove. rewrite Hd. cbn [negb].
  cbn [theta phi camera position orientation radius prevMouse isDragging].
  repeat split.
  - intros H. apply FloatFacts.clamp_inside, H.
  - intros H. apply FloatFacts.clamp_between; [vm_compute; reflexivity|exact H].
Qed.

(** Outside a drag a pointer move changes nothing. *)
Lemma idle_move_ignored (clientX clientY : float) (c : Controller) :
  isDragging c = false -> onMouseMove Math_sin Math_cos clientX clientY c = c.
Proof. intros H. unfold onMouseMove. rewrite H. reflexivity. Qed.

End Trigonometry.

(** The clamps at work on a press, a drag and three turns of the wheel. *)
Lemma clamped_after_sample_inputs :
  let inputs := [MouseDown 0 0; MouseMove 30 (-2000); Wheel 120;
                 MouseUp; Wheel 100000; Wheel (-1000000)] in
  forallb well_formed inputs = true /\
  Num.between phi_min phi_max
    (phi (run Samples.any_function Samples.any_function initial inputs)) = true /\
  Num.between radius_min radius_max
    (radius (run Samples.any_function Samples.any_function initial inputs)) = true.
Proof.
  split; [vm_compute; reflexivity|].
  apply (clamped_after_any_inputs Samples.any_function Samples.any_function).
  vm_compute; reflexivity.
Defined.

(** C2, as stated, fails: a long drag downwards leaves the polar angle equal
    to the upper bound [Math.PI - 0.1], which is not strictly below it,
    whatever the sine and cosine of the engine are. *)
Lemma drag_down_reaches_upper_bound :
  forallb well_formed Samples.drag_down = true /\
  forall Math_sin Math_cos : float -> float,
    phi (run Math_sin Math_cos initial Samples.drag_down) = phi_max /\
    Num.strictly_between phi_min phi_max
      (phi (run Math_sin Math_cos initial Samples.drag_down)) = false.
Proof.
  split; [vm_compute; reflexivity|].
  intros Math_sin Math_cos. split; vm_compute; reflexivity.
Qed.

(** C7, as stated, fails: in the Dragging state a pointer move of 1000
    pixels downwards leaves the polar angle equal to the bound
    [Math.PI - 0.1], and one of 1000 pixels upwards leaves it equal to the
    bound 0.1; neither value is inside the open interval, whatever the sine
    and cosine of the engine are. *)
Lemma dragging_move_stops_at_the_bound :
  isDragging (onMouseDown 0 0 initial) = true /\
  forall Math_sin Math_cos : float -> float,
    let down := onMouseMove Math_sin Math_cos 0 1000 (onMouseDown 0 0 initial) in
    let up := onMouseMove Math_sin Math_cos 0 (-1000) (onMouseDown 0 0 initial) in
    phi down = phi_max /\
    Num.strictly_between phi_min phi_max (phi down) = false /\
    phi up = phi_min /\
    Num.strictly_between phi_min phi_max (phi up) = false.
Proof.
  split; [reflexivity|].
  intros Math_sin Math_cos. cbv zeta. repeat split; vm_compute; reflexivity.
Qed.

(** The same for the radius: the wheel reaches both ends of its range. *)
Example wheel_reaches_both_bounds :
  forall Math_sin Math_cos : float -> float,
    radius (run Math_sin Math_cos initial [Wheel 100000]) = radius_max /\
    radius (run Math_sin Math_cos initial [Wheel (-100000)]) = radius_min.
Proof. intros Math_sin Math_cos. split; vm_compute; reflexivity. Qed.

(** A drag of 25 pixels to the right and 50 pixels down from the first
    press of a session. *)
Lemma drag_move_from_first_press :
  let c := onMouseDown 100 100 initial in
  let c' := onMouseMove Samples.any_function Samples.any_function 125 150 c in
  isDragging c = true /\
  theta c' = 0 - (125 - 100) * sensitivity /\
  phi c' = Num.PI / 2 + (150 - 100) * sensitivity /\
  orientation (camera c') = LookAt (position (camera c')) Vector3.origin /\
  radius c' = Num.lit_2_8.
Proof.
  pose proof (drag_move_updates_camera Samples.any_function Samples.any_function
                125 150 (onMouseDown 100 100 initial) eq_refl) as H.
  cbv zeta in H. destruct H as (Ht & _ & Hin & _ & _ & Ho & Hr & _).
  split; [reflexivity|]. split; [exact Ht|].
  split; [apply Hin; vm_compute; reflexivity|]. split; [exact Ho|exact Hr].
Defined.

End OrbitFacts.

(** ** The point-cloud store *)

Module StoreFacts.
Import Store.

Section Runtime.
Variable StringToNumber : string -> float.
Variable ObjectToNumber : Json.value -> option float.

Ltac run_update st :=
  unfold update_scene;
  cbv [mbind M_bind mret M_ret exec read eval throw scene_remove
       geometry_dispose material_dispose new_BufferGeometry
       new_PointsMaterial new_Points scene_add set_pointsRef fresh];
  cbn [pointsRef setStats log];
  destruct (pointsRef st) as [old|] eqn:Hcur.

(** The part after the two [await]s when the position buffer can be built. *)
Lemma update_scene_builds (shapeName : string) (rawPoints statsData : Json.value)
    (st : State) (positions : list float) :
  positions_of StringToNumber ObjectToNumber rawPoints = Some positions ->
  exists st',
    update_scene StringToNumber ObjectToNumber shapeName rawPoints statsData st
      = (st', Some tt) /\
    shape st' = shape st /\ loading st' = loading st /\ error st' = error st /\
    orbit st' = orbit st /\ inflight st' = inflight st /\
    stats st' = statsData /\
    scene st' = Three.add (Three.PointCloud (built_points shapeName positions (next_id st)))
                  (scene_without (pointsRef st) (scene st)) /\
    pointsRef st' = Some (built_points shapeName positions (next_id st)) /\
    disposed st' = disposed st ++ resources (pointsRef st) /\
    next_id st' = S (S (S (next_id st))) /\
    trace st' = trace st ++ SetStats statsData :: release_effects (pointsRef st)
                  ++ build_effects (next_id st).
Proof.
  intros Hp. run_update st; rewrite Hp;
    (eexists; split; [reflexivity|]);
    cbn; rewrite ?Hcur, ?app_nil_r, <- ?app_assoc; cbn; repeat split; reflexivity.
Qed.

(** The same part when building the position buffer throws. *)
Lemma update_scene_throws (shapeName : string) (rawPoints statsData : Json.value)
    (st : State) :
  positions_of StringToNumber ObjectToNumber rawPoints = None ->
  exists st',
    update_scene StringToNumber ObjectToNumber shapeName rawPoints statsData st
      = (st', None) /\
    shape st' = shape st /\ loading st' = loading st /\ error st' = error st /\
    orbit st' = orbit st /\ inflight st' = inflight st /\
    stats st' = statsData /\
    scene st' = scene_without (pointsRef st) (scene st) /\
    pointsRef st' = pointsRef st /\
    disposed st' = disposed st ++ resources (pointsRef st) /\
    next_id st' = S (next_id st) /\
    trace st' = trace st ++ SetStats statsData :: release_effects (pointsRef st)
                  ++ [NewGeometry (next_id st)].
Proof.
  intros Hp. run_update st; rewrite Hp;
    (eexists; split; [reflexivity|]);
    cbn; rewrite ?Hcur, ?app_nil_r, <- ?app_assoc; cbn; repeat split; reflexivity.
Qed.

(** What a resumption leaves alone, and what it does to the loading flag:
    it clears the flag exactly when the invocation completes. *)
Lemma resume_frame (p : Pending) (r : FetchResult) (st : State) :
  let st' := fst (resume StringToNumber ObjectToNumber p r st) in
  let next := snd (resume StringToNumber ObjectToNumber p r st) in
  orbit st' = orbit st /\ inflight st' = inflight st /\ shape st' = shape st /\
  loading st' = (if is_done next then false else loading st).
Proof.
  destruct p as [name|name raw]; cbn [resume];
    destruct (then_json r) as [body|]; try (cbn; repeat split; reflexivity).
  destruct (positions_of StringToNumber ObjectToNumber raw) as [pos|] eqn:Hp.
  - destruct (update_scene_builds name raw body
                (log (Settled (stats_url name)) st) pos Hp)
      as (st' & -> & Hs & _ & _ & Ho & Hi & _).
    cbn. repeat split; assumption.
  - destruct (update_scene_throws name raw body
                (log (Settled (stats_url name)) st) Hp)
      as (st' & -> & Hs & _ & _ & Ho & Hi & _).
    cbn. repeat split; assumption.
Qed.

(** C1 (as the code has it): when an invocation fails because one of its
    two requests is rejected or answers with a body that is not JSON, the
    stats, the current render object, the scene and the released resources
    are those before the call; the error is the backend message and the
    loading flag is cleared. *)
Theorem fetch_failure_keeps_store (shapeName : string) (r1 r2 : FetchResult)
    (st : State) :
  then_json r1 = None \/ then_json r2 = None ->
  let st' := completed StringToNumber ObjectToNumber shapeName r1 r2 st in
  stats st' = stats st /\ pointsRef st' = pointsRef st /\
  scene st' = scene st /\ disposed st' = disposed st /\
  next_id st' = next_id st /\ shape st' = shape st /\
  orbit st' = orbit st /\ inflight st' = inflight st /\
  error st' = Some backend_message /\ loading st' = false.
Proof.
  intros H. unfold completed, run_alone, loadShape. cbn [resume].
  destruct (then_json r1) as [raw|] eqn:E1.
  - cbn [resume]. destruct (then_json r2) as [body|] eqn:E2.
    + destruct H; discriminate.
    + cbn. repeat split; reflexivity.
  - cbn. repeat split; reflexivity.
Qed.

(** An invocation followed alone whose two bodies parse and whose position
    buffer can be built. *)
Lemma completed_loads (shapeName : string) (r1 r2 : FetchResult)
    (st : State) (rawPoints statsData : Json.value) (positions : list float) :
  then_json r1 = Some rawPoints ->
  then_json r2 = Some statsData ->
  positions_of StringToNumber ObjectToNumber rawPoints = Some positions ->
  let st' := completed StringToNumber ObjectToNumber shapeName r1 r2 st in
  trace st' =
    trace st
    ++ [SetLoading true; SetError None;
        Fetch (points_url shapeName); Settled (points_url shapeName);
        Fetch (stats_url shapeName); Settled (stats_url shapeName);
        SetStats statsData]
    ++ release_effects (pointsRef st)
    ++ build_effects (next_id st)
    ++ [SetLoading false] /\
  stats st' = statsData /\
  pointsRef st' = Some (built_points shapeName positions (next_id st)) /\
  scene st' = Three.add (Three.PointCloud (built_points shapeName positions (next_id st)))
                (scene_without (pointsRef st) (scene st)) /\
  disposed st' = disposed st ++ resources (pointsRef st) /\
  error st' = None /\ loading st' = false.
Proof.
  intros E1 E2 Hp. unfold completed, run_alone, loadShape. cbn [resume].
  rewrite E1. cbn [resume]. rewrite E2.
  match goal with |- context [update_scene _ _ _ _ _ ?s] =>
    destruct (update_scene_builds shapeName rawPoints statsData s positions Hp)
      as (st' & -> & _ & _ & He & _ & _ & Hs & Hsc & Hr & Hd & _ & Ht)
  end.
  cbn in *. rewrite Ht, Hs, Hr, Hsc, Hd, He.
  repeat split; try reflexivity.
  rewrite <- !app_assoc. cbn. rewrite <- !app_assoc. reflexivity.
Qed.

(** C4 (as the code has it): followed alone, an invocation always
    completes, the loading flag is set at each point where it is suspended
    and cleared when it completes, on every path; in general, the call sets
    the flag and each resumption clears it exactly when the invocation
    completes. *)
Theorem loading_flag_of_an_invocation (shapeName : string) (r1 r2 : FetchResult)
    (st : State) :
  Forall (fun sp => loading (fst sp) = negb (is_done (snd sp)))
    (run_alone StringToNumber ObjectToNumber shapeName r1 r2 st) /\
  (exists st', last (run_alone StringToNumber ObjectToNumber shapeName r1 r2 st)
               = Some (st', None)) /\
  loading (fst (loadShape shapeName st)) = true /\
  forall (p : Pending) (r : FetchResult) (s : State),
    loading (fst (resume StringToNumber ObjectToNumber p r s)) =
      if is_done (snd (resume StringToNumber ObjectToNumber p r s)) then false
      else loading s.
Proof.
  split; [|split; [|split; [reflexivity|]]].
  - unfold run_alone.
    destruct (loadShape shapeName st) as [st0 p0] eqn:E0.
    assert (H0 : loading st0 = true) by (injection E0 as <- _; reflexivity).
    destruct (resume _ _ p0 r1 st0) as [st1 p1] eqn:E1.
    pose proof (resume_frame p0 r1 st0) as (_ & _ & _ & H1).
    rewrite E1 in H1. cbn [fst snd] in H1.
    destruct p1 as [p1|].
    + destruct (resume _ _ p1 r2 st1) as [st2 p2] eqn:E2.
      pose proof (resume_frame p1 r2 st1) as (_ & _ & _ & H2).
      rewrite E2 in H2. cbn [fst snd] in H2.
      repeat constructor; cbn [fst snd is_done negb]; try assumption.
      * cbn [is_done] in H1. congruence.
      * destruct p2; cbn [is_done negb] in *; [|assumption].
        rewrite H2. cbn [is_done] in H1. congruence.
    + repeat constructor; cbn [fst snd is_done negb] in *; assumption.
  - unfold run_alone, loadShape. cbn [resume].
    destruct (then_json r1) as [raw|]; [|eexists; reflexivity].
    cbn [resume]. destruct (then_json r2) as [body|]; [|eexists; reflexivity].
    destruct (update_scene _ _ _ _ _ _) as [s' [[]|]]; eexists; reflexivity.
  - intros p r s. exact (proj2 (proj2 (proj2 (resume_frame p r s)))).
Qed.

(** C8: neither the call of [loadShape] nor any of its resumptions changes
    the orbit state (angles, radius, camera position), whatever the
    responses are; among the events of the viewer only pointer and wheel
    input changes it. *)
Theorem loadShape_keeps_camera (shapeName : string) (r1 r2 : FetchResult)
    (st : State) :
  orbit (fst (loadShape shapeName st)) = orbit st /\
  (forall (p : Pending) (r : FetchResult) (s : State),
     orbit (fst (resume StringToNumber ObjectToNumber p r s)) = orbit s) /\
  Forall (fun sp => orbit (fst sp) = orbit st)
    (run_alone StringToNumber ObjectToNumber shapeName r1 r2 st) /\
  forall (Math_sin Math_cos : float -> float) (e : Event) (s : State),
    orbit (step StringToNumber ObjectToNumber Math_sin Math_cos s e) =
      match e with
      | Pointer i => Orbit.handle Math_sin Math_cos (orbit s) i
      | _ => orbit s
      end.
Proof.
  assert (Hres : forall p r s,
            orbit (fst (resume StringToNumber ObjectToNumber p r s)) = orbit s).
  { intros p r s. exact (proj1 (resume_frame p r s)). }
  split; [reflexivity|]. split; [exact Hres|]. split.
  - unfold run_alone.
    destruct (loadShape shapeName st) as [st0 p0] eqn:E0.
    assert (H0 : orbit st0 = orbit st) by (injection E0 as <- _; reflexivity).
    pose proof (Hres p0 r1 st0) as H1.
    destruct (resume _ _ p0 r1 st0) as [st1 p1]. cbn [fst] in H1.
    destruct p1 as [p1|].
    + pose proof (Hres p1 r2 st1) as H2.
      destruct (resume _ _ p1 r2 st1) as [st2 p2]. cbn [fst] in H2.
      repeat constructor; cbn [fst]; congruence.
    + repeat constructor; cbn [fst]; congruence.
  - intros Math_sin Math_cos e s. destruct e as [c|i r|i]; cbn [step].
    + unfold press. destruct (render s) as [buttons|]; [|reflexivity].
      destruct (find _ _) as [b|]; [|reflexivity].
      destruct (disabled b); [reflexivity|].
      destruct c; reflexivity.
    + unfold settle. destruct (inflight s !! i) as [p|]; [|reflexivity].
      pose proof (Hres p r (with_inflight (delete i (inflight s)) s)) as H.
      destruct (resume _ _ p r _) as [s' next]. cbn [fst] in H.
      destruct next; cbn; exact H.
    + reflexivity.
Qed.

(** The reads of line 144 on points with numeric coordinates. *)
Lemma flatMap_xyz_points (ps : list (float * float * float)) :
  Json.flatMap_xyz (map (fun '(x, y, z) => Json.point x y z) ps) =
  Some (flat_map (fun '(x, y, z) =>
                    [Some (Json.Number x); Some (Json.Number y); Some (Json.Number z)])
                 ps).
Proof.
  induction ps as [|[[x y] z] ps IH]; [reflexivity|].
  cbn [map Json.flatMap_xyz flat_map]. rewrite IH. reflexivity.
Qed.

Lemma Float32Array_numbers (ps : list (float * float * float)) :
  Json.Float32Array StringToNumber ObjectToNumber
    (flat_map (fun '(x, y, z) =>
                 [Some (Json.Number x); Some (Json.Number y); Some (Json.Number z)])
              ps) =
  Some (flat_map (fun '(x, y, z) => [Json.fround x; Json.fround y; Json.fround z]) ps).
Proof.
  induction ps as [|[[x y] z] ps IH]; [reflexivity|].
  cbn [flat_map app Json.Float32Array Json.ToNumber]. rewrite IH. reflexivity.
Qed.

Lemma lookup_triples {A B : Type} (f : A -> B * B * B) (l : list A) :
  forall (i : nat) (a : A), l !! i = Some a ->
    flat_map (fun a => [(f a).1.1; (f a).1.2; (f a).2]) l !! (3 * i)%nat
      = Some (f a).1.1 /\
    flat_map (fun a => [(f a).1.1; (f a).1.2; (f a).2]) l !! (3 * i + 1)%nat
      = Some (f a).1.2 /\
    flat_map (fun a => [(f a).1.1; (f a).1.2; (f a).2]) l !! (3 * i + 2)%nat
      = Some (f a).2.
Proof.
  induction l as [|b l IH]; intros i a H; [discriminate|].
  destruct i as [|i].
  - injection H as ->. repeat split; reflexivity.
  - replace (3 * S i)%nat with (S (S (S (3 * i)))) by lia.
    cbn [flat_map app lookup list_lookup Nat.add]. cbn in H.
    exact (IH i a H).
Qed.

Lemma length_triples {A B : Type} (f : A -> list B) (l : list A) :
  (forall a, length (f a) = 3%nat) -> length (flat_map f l) = (3 * length l)%nat.
Proof.
  intros Hf. induction l as [|a l IH]; [reflexivity|].
  cbn [flat_map]. rewrite length_app, Hf, IH. cbn [length]. lia.
Qed.

(** C5 (as the code has it): for points with numeric coordinates the
    position buffer has three entries per point, in point order, and the
    entries of point [i] are its [x], [y], [z] rounded to single precision. *)
Theorem position_buffer_layout (ps : list (float * float * float)) :
  exists buffer : list float,
    positions_of StringToNumber ObjectToNumber
      (Json.Array (map (fun '(x, y, z) => Json.point x y z) ps)) = Some buffer /\
    length buffer = (3 * length ps)%nat /\
    forall (i : nat) (x y z : float), ps !! i = Some (x, y, z) ->
      buffer !! (3 * i)%nat = Some (Json.fround x) /\
      buffer !! (3 * i + 1)%nat = Some (Json.fround y) /\
      buffer !! (3 * i + 2)%nat = Some (Json.fround z).
Proof.
  exists (flat_map (fun '(x, y, z) => [Json.fround x; Json.fround y; Json.fround z]) ps).
  split; [|split].
  - unfold positions_of. cbn [Json.flatMap_points].
    rewrite flatMap_xyz_points. apply Float32Array_numbers.
  - apply length_triples. intros [[x y] z]. reflexivity.
  - intros i x y z H.
    pose proof (lookup_triples
                  (fun '(x, y, z) => (Json.fround x, Json.fround y, Json.fround z))
                  ps i (x, y, z) H) as L.
    cbn [fst snd] in L.
    replace (flat_map (fun '(x, y, z) => [Json.fround x; Json.fround y; Json.fround z]) ps)
      with (flat_map (fun a : float * float * float =>
              [(let '(x, y, z) := a in (Json.fround x, Json.fround y, Json.fround z)).1.1;
               (let '(x, y, z) := a in (Json.fround x, Json.fround y, Json.fround z)).1.2;
               (let '(x, y, z) := a in (Json.fround x, Json.fround y, Json.fround z)).2]) ps).
    + exact L.
    + clear. induction ps as [|[[x y] z] ps IH]; [reflexivity|].
      cbn [flat_map]. rewrite IH. reflexivity.
Qed.

(** Whatever the body of the points resource is, a buffer that gets built
    comes from an array and has three entries per element. *)
Lemma position_buffer_length (rawPoints : Json.value) (buffer : list float) :
  positions_of StringToNumber ObjectToNumber rawPoints = Some buffer ->
  exists items, rawPoints = Json.Array items /\
                length buffer = (3 * length items)%nat.
Proof.
  unfold positions_of. destruct rawPoints as [| | | |items|]; try discriminate.
  cbn [Json.flatMap_points]. intros H. exists items. split; [reflexivity|].
  revert buffer H. induction items as [|p items IH]; intros buffer H.
  - cbn in H. injection H as <-. reflexivity.
  - cbn [Json.flatMap_xyz] in H.
    destruct (Json.xyz p) as [coords|] eqn:Ex; [|discriminate].
    destruct (Json.flatMap_xyz items) as [more|]; [|discriminate].
    unfold Json.xyz in Ex.
    destruct (Json.get p "x") as [vx|]; [|discriminate].
    destruct (Json.get p "y") as [vy|]; [|discriminate].
    destruct (Json.get p "z") as [vz|]; [|discriminate].
    injection Ex as <-. cbn [app Json.Float32Array] in H.
    destruct (Json.ToNumber _ _ vx); [|discriminate].
    destruct (Json.ToNumber _ _ vy); [|discriminate].
    destruct (Json.ToNumber _ _ vz); [|discriminate].
    destruct (Json.Float32Array _ _ more) as [ns|]; [|discriminate].
    injection H as <-. cbn [length]. rewrite (IH ns eq_refl). lia.
Qed.

(** Every style of the colour table is a non-empty string. *)
Lemma COLORS_styles (name style : string) :
  COLORS !! name = Some style ->
  color_argument name = Three.StyleString style.
Proof.
  intros H. unfold color_argument. rewrite H.
  unfold COLORS in H. apply elem_of_list_to_map_2 in H.
  repeat (apply elem_of_cons in H; destruct H as [H|H];
          [injection H as -> ->; reflexivity|]).
  apply elem_of_nil in H. destruct H.
Qed.

Lemma unmapped_is_white (name : string) :
  COLORS !! name = None ->
  Three.new_Color (color_argument name) = Three.white.
Proof.
  intros H. unfold color_argument. rewrite H.
  destruct (bool_decide _); reflexivity.
Qed.

(** C6: the table gives each of the seven shape names one colour, and the
    material of the render object a load installs has the colour the table
    gives the loaded name, or white when the table has none. *)
Theorem new_cloud_has_shape_color (shapeName : string)
    (rawPoints statsData : Json.value) (st st' : State) :
  update_scene StringToNumber ObjectToNumber shapeName rawPoints statsData st
    = (st', Some tt) ->
  map (fun s => COLORS !! s) SHAPES =
    [Some "#00e5ff"; Some "#ff6b6b"; Some "#69ff47"; Some "#ffd600";
     Some "#ff3d00"; Some "#40c4ff"; Some "#7c4dff"]%string /\
  exists p : Three.Points,
    pointsRef st' = Some p /\
    last (scene st') = Some (Three.PointCloud p) /\
    Three.color (Three.material p) =
      match COLORS !! shapeName with
      | Some style => Three.new_Color (Three.StyleString style)
      | None => Three.white
      end.
Proof.
  intros H. split; [vm_compute; reflexivity|].
  destruct (positions_of StringToNumber ObjectToNumber rawPoints) as [pos|] eqn:Hp.
  - destruct (update_scene_builds shapeName rawPoints statsData st pos Hp)
      as (s' & E & _ & _ & _ & _ & _ & _ & Hsc & Hr & _).
    rewrite E in H. injection H as <-.
    exists (built_points shapeName pos (next_id st)).
    split; [exact Hr|]. split.
    + rewrite Hsc. unfold Three.add. apply last_snoc.
    + cbn [built_points Three.material Three.color].
      destruct (COLORS !! shapeName) as [style|] eqn:Ec.
      * rewrite (COLORS_styles _ _ Ec). reflexivity.
      * apply unmapped_is_white, Ec.
  - destruct (update_scene_throws shapeName rawPoints statsData st Hp)
      as (s' & E & _).
    rewrite E in H. discriminate.
Qed.

(** C10: [loadShape] checks nothing about its argument: for every string it
    sets the flag, clears the error and requests [shapes/{name}.points.json];
    once that body parses it requests [shapes/{name}.stats.json]; and when
    the table has no entry for the name, the invocation whose position
    buffer can be built ends without an error, with a white render object
    as the current one and as the last child of the scene. *)
Theorem loadShape_accepts_any_name (shapeName : string) (st : State) :
  snd (loadShape shapeName st) = AwaitingPoints shapeName /\
  trace (fst (loadShape shapeName st)) =
    trace st ++ [SetLoading true; SetError None;
                 Fetch ("shapes/" +:+ shapeName +:+ ".points.json")%string] /\
  (forall (r : FetchResult) (rawPoints : Json.value) (s : State),
     then_json r = Some rawPoints ->
     snd (resume StringToNumber ObjectToNumber (AwaitingPoints shapeName) r s)
       = Some (AwaitingStats shapeName rawPoints) /\
     trace (fst (resume StringToNumber ObjectToNumber (AwaitingPoints shapeName) r s))
       = trace s ++ [Settled ("shapes/" +:+ shapeName +:+ ".points.json")%string;
                     Fetch ("shapes/" +:+ shapeName +:+ ".stats.json")%string]) /\
  (forall (r1 r2 : FetchResult) (rawPoints statsData : Json.value)
          (positions : list float),
     then_json r1 = Some rawPoints ->
     then_json r2 = Some statsData ->
     positions_of StringToNumber ObjectToNumber rawPoints = Some positions ->
     COLORS !! shapeName = None ->
     let st' := completed StringToNumber ObjectToNumber shapeName r1 r2 st in
     error st' = None /\
     exists p : Three.Points,
       pointsRef st' = Some p /\
       last (scene st') = Some (Three.PointCloud p) /\
       Three.points_id p = S (S (next_id st)) /\
       Three.color (Three.material p) = Three.white).
Proof.
  split; [reflexivity|]. split.
  { cbn. rewrite <- !app_assoc. reflexivity. }
  split.
  - intros r rawPoints s E. cbn [resume]. rewrite E. cbn.
    rewrite <- !app_assoc. split; reflexivity.
  - intros r1 r2 rawPoints statsData positions E1 E2 Hp Ec.
    destruct (completed_loads shapeName r1 r2 st rawPoints statsData positions
                E1 E2 Hp) as (_ & _ & Hr & Hsc & _ & He & _).
    cbv zeta. split; [exact He|].
    exists (built_points shapeName positions (next_id st)).
    split; [exact Hr|]. split.
    + rewrite Hsc. unfold Three.add. apply last_snoc.
    + split; [reflexivity|].
      cbn [built_points Three.material Three.color].
      apply unmapped_is_white, Ec.
Qed.

End Runtime.

(** C9: while the component is rendered, whatever the loading flag is,
    each of the seven shape buttons is rendered enabled, and a press on it
    sets the selection and calls [loadShape] at once, adding a suspended
    invocation to those already in flight; only the reload button is
    disabled by the loading flag. *)
Theorem shape_buttons_ignore_loading (s : string) (st : State) :
  s ∈ SHAPES ->
  crashed st = false ->
  (exists buttons : list Button,
     render st = Some buttons /\
     mkButton (ShapeButton s) false ∈ buttons /\
     mkButton ReloadButton (loading st) ∈ buttons /\
     forall b : Button, b ∈ buttons ->
       disabled b = match control b with
                    | ShapeButton _ => false
                    | ReloadButton => loading st
                    end) /\
  press (ShapeButton s) st = invoke s (setShape s st) /\
  shape (press (ShapeButton s) st) = s /\
  loading (press (ShapeButton s) st) = true /\
  inflight (press (ShapeButton s) st) = inflight st ++ [AwaitingPoints s] /\
  trace (press (ShapeButton s) st) =
    trace st ++ [SetShape s; SetLoading true; SetError None; Fetch (points_url s)] /\
  press ReloadButton st = (if loading st then st else invoke (shape st) st).
Proof.
  intros Hs Hc.
  assert (Hr : render st =
               Some (map (fun s => mkButton (ShapeButton s) false) SHAPES
                     ++ [mkButton ReloadButton (loading st)])).
  { unfold render. rewrite Hc. reflexivity. }
  assert (Hp : press (ShapeButton s) st = invoke s (setShape s st)).
  { unfold press. rewrite Hr. unfold SHAPES in Hs |- *.
    repeat (apply elem_of_cons in Hs; destruct Hs as [->|Hs]; [reflexivity|]).
    apply elem_of_nil in Hs. destruct Hs. }
  split.
  { eexists. split; [exact Hr|]. split; [|split].
    - apply elem_of_app. left.
      apply (list_elem_of_fmap_2 (fun s => mkButton (ShapeButton s) false)), Hs.
    - apply elem_of_app. right. apply list_elem_of_singleton. reflexivity.
    - intros b Hb. apply elem_of_app in Hb. destruct Hb as [Hb|Hb].
      + apply list_elem_of_fmap in Hb. destruct Hb as (x & -> & _). reflexivity.
      + apply list_elem_of_singleton in Hb. subst b. reflexivity. }
  split; [exact Hp|]. rewrite Hp.
  split; [reflexivity|]. split; [reflexivity|]. split; [reflexivity|].
  split.
  { cbn. rewrite <- !app_assoc. reflexivity. }
  unfold press. rewrite Hr. cbn. destruct (loading st); reflexivity.
Qed.

(** The sphere is loaded and its stats are shown; while a reload is in
    flight, a press on the torus button starts a second invocation and a
    press on the reload button does nothing. *)
Lemma torus_pressed_during_reload :
  let st := press ReloadButton
              (completed Samples.any_StringToNumber Samples.any_ObjectToNumber
                 "sphere" (Samples.ok Samples.two_points)
                 (Samples.ok Samples.full_stats) unmounted) in
  stats st = Samples.full_stats /\
  loading st = true /\
  inflight st = [AwaitingPoints "sphere"] /\
  shape (press (ShapeButton "torus") st) = "torus"%string /\
  loading (press (ShapeButton "torus") st) = true /\
  inflight (press (ShapeButton "torus") st)
    = [AwaitingPoints "sphere"; AwaitingPoints "torus"] /\
  press ReloadButton st = st.
Proof.
  cbv zeta.
  pose proof (shape_buttons_ignore_loading "torus"
                (press ReloadButton
                   (completed Samples.any_StringToNumber Samples.any_ObjectToNumber
                      "sphere" (Samples.ok Samples.two_points)
                      (Samples.ok Samples.full_stats) unmounted))) as H.
  destruct H as (_ & _ & Hshape & Hl & Hin & _ & Hre).
  { unfold SHAPES. apply elem_of_cons. right. apply elem_of_cons. left. reflexivity. }
  { vm_compute. reflexivity. }
  split; [vm_compute; reflexivity|]. split; [vm_compute; reflexivity|].
  split; [vm_compute; reflexivity|].
  split; [exact Hshape|]. split; [exact Hl|].
  split; [rewrite Hin|rewrite Hre]; vm_compute; reflexivity.
Defined.

(** The buffer of the two sample points; values that single precision
    represents are stored unchanged. *)
Example two_points_buffer :
  forall (StringToNumber : string -> float)
         (ObjectToNumber : Json.value -> option float),
    positions_of StringToNumber ObjectToNumber Samples.two_points
      = Some [0x1.99999ap-4; 0.5; 1; 2; 3; 4].
Proof. intros StringToNumber ObjectToNumber. vm_compute. reflexivity. Qed.

(** A points body that is not an array, or has a [null] element, makes the
    construction of the buffer throw. *)
Example malformed_points_throw :
  forall (StringToNumber : string -> float)
         (ObjectToNumber : Json.value -> option float),
    positions_of StringToNumber ObjectToNumber Samples.error_body = None /\
    positions_of StringToNumber ObjectToNumber
      (Json.Array [Json.point 1 2 3; Json.Null]) = None.
Proof. intros StringToNumber ObjectToNumber. split; reflexivity. Qed.

(** What the stats panel accepts: no stats, zero, and a complete record;
    it throws on an abridged record and on the error body of the backend. *)
Example panel_renders_samples :
  panel_renders Json.Null = true /\
  panel_renders (Json.Number 0) = true /\
  panel_renders Samples.full_stats = true /\
  panel_renders Samples.some_stats = false /\
  panel_renders Samples.error_body = false /\
  panel_renders (Json.Bool true) = false.
Proof. repeat split; vm_compute; reflexivity. Qed.

(** A name outside the enumeration and the colour table: the teapot is
    requested like any shape and shown in white. *)
Lemma teapot_is_requested_and_white :
  let st' := completed Samples.any_StringToNumber Samples.any_ObjectToNumber
               "teapot" (Samples.ok Samples.two_points)
               (Samples.ok Samples.full_stats) unmounted in
  bool_decide ("teapot"%string ∈ SHAPES) = false /\
  COLORS !! "teapot"%string = None /\
  trace (fst (loadShape "teapot" unmounted)) =
    [SetLoading true; SetError None; Fetch "shapes/teapot.points.json"] /\
  error st' = None /\
  exists p : Three.Points,
    pointsRef st' = Some p /\
    last (scene st') = Some (Three.PointCloud p) /\
    Three.color (Three.material p) = 0xffffff%Z.
Proof.
  cbv zeta.
  destruct (loadShape_accepts_any_name Samples.any_StringToNumber
              Samples.any_ObjectToNumber "teapot" unmounted)
    as (_ & Ht & _ & Hw).
  assert (Ec : COLORS !! "teapot"%string = None) by (vm_compute; reflexivity).
  specialize (Hw (Samples.ok Samples.two_points) (Samples.ok Samples.full_stats)
                Samples.two_points Samples.full_stats
                [0x1.99999ap-4; 0.5; 1; 2; 3; 4] eq_refl eq_refl
                (two_points_buffer Samples.any_StringToNumber
                   Samples.any_ObjectToNumber) Ec).
  cbv zeta in Hw. destruct Hw as (He & q & H1 & H2 & _ & H3).
  split; [vm_compute; reflexivity|]. split; [exact Ec|].
  split; [rewrite Ht; reflexivity|]. split; [exact He|].
  exists q. split; [exact H1|]. split; [exact H2|].
  rewrite H3. reflexivity.
Defined.

(** C1, as stated, fails: after a first load, a load of the cube to which
    the backend answers 404 with its JSON error body ends in the [catch]
    clause, yet the stats are replaced by the error body, the render object
    is removed from the scene and its geometry and material are disposed,
    while [pointsRef] still refers to it. *)
Lemma failed_load_replaces_stats_and_cloud :
  then_json Samples.not_found = Some Samples.error_body /\
  forall (StringToNumber : string -> float)
         (ObjectToNumber : Json.value -> option float),
    let st := completed StringToNumber ObjectToNumber "sphere"
                (Samples.ok Samples.two_points) (Samples.ok Samples.some_stats)
                unmounted in
    let st' := completed StringToNumber ObjectToNumber "cube"
                 Samples.not_found Samples.not_found st in
    failed StringToNumber ObjectToNumber "cube"
      Samples.not_found Samples.not_found st = true /\
    error st' = Some backend_message /\
    stats st = Samples.some_stats /\
    stats st' = Samples.error_body /\
    exists old : Three.Points,
      pointsRef st = Some old /\
      scene st = [Three.GridHelper; Three.AxesHelper; Three.PointCloud old] /\
      scene st' = [Three.GridHelper; Three.AxesHelper] /\
      disposed st = [] /\
      disposed st' = [Three.geometry_id (Three.geometry old);
                      Three.material_id (Three.material old)] /\
      pointsRef st' = Some old.
Proof.
  split; [reflexivity|]. intros StringToNumber ObjectToNumber.
  cbv zeta. split; [vm_compute; reflexivity|].
  split; [vm_compute; reflexivity|]. split; [vm_compute; reflexivity|].
  split; [vm_compute; reflexivity|].
  exists (built_points "sphere" [0x1.99999ap-4; 0.5; 1; 2; 3; 4] 0).
  split; [vm_compute; reflexivity|]. split; [vm_compute; reflexivity|].
  split; [vm_compute; reflexivity|]. split; [vm_compute; reflexivity|].
  split; vm_compute; reflexivity.
Qed.

(** A rejected request and an unparseable body after a first load. *)
Lemma rejected_requests_keep_store :
  let st := completed Samples.any_StringToNumber Samples.any_ObjectToNumber
              "sphere" (Samples.ok Samples.two_points)
              (Samples.ok Samples.some_stats) unmounted in
  let st1 := completed Samples.any_StringToNumber Samples.any_ObjectToNumber
               "cube" NetworkError NetworkError st in
  let st2 := completed Samples.any_StringToNumber Samples.any_ObjectToNumber
               "cube" (Samples.ok Samples.two_points) Samples.html_page st in
  (stats st1 = stats st /\ pointsRef st1 = pointsRef st /\ scene st1 = scene st /\
   error st1 = Some backend_message /\ loading st1 = false) /\
  (stats st2 = stats st /\ pointsRef st2 = pointsRef st /\ scene st2 = scene st /\
   error st2 = Some backend_message /\ loading st2 = false).
Proof.
  cbv zeta. split.
  - pose proof (fetch_failure_keeps_store Samples.any_StringToNumber
                  Samples.any_ObjectToNumber "cube" NetworkError NetworkError
                  (completed Samples.any_StringToNumber Samples.any_ObjectToNumber
                     "sphere" (Samples.ok Samples.two_points)
                     (Samples.ok Samples.some_stats) unmounted)
                  (or_introl eq_refl)) as H.
    cbv zeta in H. destruct H as (H1 & H2 & H3 & _ & _ & _ & _ & _ & H4 & H5).
    exact (conj H1 (conj H2 (conj H3 (conj H4 H5)))).
  - pose proof (fetch_failure_keeps_store Samples.any_StringToNumber
                  Samples.any_ObjectToNumber "cube"
                  (Samples.ok Samples.two_points) Samples.html_page
                  (completed Samples.any_StringToNumber Samples.any_ObjectToNumber
                     "sphere" (Samples.ok Samples.two_points)
                     (Samples.ok Samples.some_stats) unmounted)
                  (or_intror eq_refl)) as H.
    cbv zeta in H. destruct H as (H1 & H2 & H3 & _ & _ & _ & _ & _ & H4 & H5).
    exact (conj H1 (conj H2 (conj H3 (conj H4 H5)))).
Defined.

(** C4, as stated, fails: the torus is selected while the initial load of
    the sphere is in flight, and the sphere's request is then rejected; the
    sphere's invocation clears the loading flag although the torus's
    invocation has not completed. *)
Lemma overlapping_load_sees_cleared_flag :
  loading (press (ShapeButton "torus") mounted) = true /\
  inflight (press (ShapeButton "torus") mounted)
    = [AwaitingPoints "sphere"; AwaitingPoints "torus"] /\
  forall (StringToNumber : string -> float)
         (ObjectToNumber : Json.value -> option float),
    let st := settle StringToNumber ObjectToNumber 0 NetworkError
                (press (ShapeButton "torus") mounted) in
    loading st = false /\ inflight st = [AwaitingPoints "torus"].
Proof.
  split; [reflexivity|]. split; [reflexivity|].
  intros StringToNumber ObjectToNumber. cbv zeta. split; reflexivity.
Qed.

(** C5, as stated, fails: the coordinate 0.1 is stored as the nearest
    single-precision value, which is not 0.1. *)
Lemma coordinates_are_rounded_to_single :
  Json.fround Num.lit_0_1 = 0x1.99999ap-4 /\
  (0x1.99999ap-4 =? Num.lit_0_1) = false /\
  forall (StringToNumber : string -> float)
         (ObjectToNumber : Json.value -> option float),
    positions_of StringToNumber ObjectToNumber
      (Json.Array [Json.point Num.lit_0_1 0 0]) = Some [0x1.99999ap-4; 0; 0].
Proof.
  split; [vm_compute; reflexivity|]. split; [vm_compute; reflexivity|].
  intros StringToNumber ObjectToNumber. vm_compute. reflexivity.
Qed.

(** The torus is loaded into an empty scene: its cloud has the colour the
    table gives the torus. *)
Lemma torus_cloud_color :
  let r := update_scene Samples.any_StringToNumber Samples.any_ObjectToNumber
             "torus" Samples.two_points Samples.some_stats unmounted in
  snd r = Some tt /\
  exists p : Three.Points,
    pointsRef (fst r) = Some p /\
    last (scene (fst r)) = Some (Three.PointCloud p) /\
    Three.color (Three.material p) = 0xff6b6b%Z.
Proof.
  cbv zeta. split; [vm_compute; reflexivity|].
  assert (E : update_scene Samples.any_StringToNumber Samples.any_ObjectToNumber
                "torus" Samples.two_points Samples.some_stats unmounted
              = (fst (update_scene Samples.any_StringToNumber
                        Samples.any_ObjectToNumber "torus" Samples.two_points
                        Samples.some_stats unmounted), Some tt))
    by (vm_compute; reflexivity).
  destruct (new_cloud_has_shape_color Samples.any_StringToNumber
              Samples.any_ObjectToNumber "torus" Samples.two_points
              Samples.some_stats unmounted _ E) as (_ & p & H1 & H2 & H3).
  exists p. split; [exact H1|]. split; [exact H2|].
  rewrite H3. vm_compute. reflexivity.
Defined.

(** The colours of the seven shapes, of the eighth entry of the table, and
    of names the table does not have (one of them a name that every object
    inherits). *)
Example colors_by_name :
  map (fun s => Three.new_Color (color_argument s)) SHAPES =
    [0x00e5ff; 0xff6b6b; 0x69ff47; 0xffd600; 0xff3d00; 0x40c4ff; 0x7c4dff]%Z /\
  Three.new_Color (color_argument "random") = 0xf040f1%Z /\
  Three.new_Color (color_argument "teapot") = Three.white /\
  Three.new_Color (color_argument "constructor") = Three.white.
Proof. repeat split; vm_compute; reflexivity. Qed.

End StoreFacts.

(** ** Sequences of loads and the resources they hold *)

Module SessionFacts.
Import Store Session.

Lemma clouds_app (l1 l2 : list Three.Object3D) :
  clouds (l1 ++ l2) = clouds l1 ++ clouds l2.
Proof. unfold clouds. apply flat_map_app. Qed.

(** Removing a render object leaves a scene without clouds without clouds. *)
Lemma clouds_remove_none (p : Three.Points) (l : list Three.Object3D) :
  clouds l = [] -> clouds (Three.remove p l) = [].
Proof.
  unfold Three.remove. induction l as [|o l IH]; intros H; [reflexivity|].
  destruct o as [| |q]; cbn in H; try discriminate;
    rewrite filter_cons; destruct (decide _); cbn; auto.
Qed.

(** Removing the only cloud of a scene leaves none. *)
Lemma clouds_remove_only (p : Three.Points) (l : list Three.Object3D) :
  clouds l = [p] -> clouds (Three.remove p l) = [].
Proof.
  induction l as [|o l IH]; intros H; [discriminate|].
  destruct o as [| |q]; cbn in H.
  - unfold Three.remove in *. rewrite filter_cons_True by reflexivity.
    cbn. apply IH, H.
  - unfold Three.remove in *. rewrite filter_cons_True by reflexivity.
    cbn. apply IH, H.
  - injection H as -> H. unfold Three.remove.
    rewrite filter_cons_False.
    + apply (clouds_remove_none p l H).
    + cbn [Three.is_object]. rewrite Nat.eqb_refl. discriminate.
Qed.

Lemma resources_of_loads_S (n : nat) :
  resources_of_loads (S n) = resources_of_loads n ++ [3 * n; 3 * n + 1]%nat.
Proof.
  unfold resources_of_loads. rewrite seq_S, flat_map_app. cbn [flat_map Nat.add].
  rewrite app_nil_r. reflexivity.
Qed.

Lemma resources_of_loads_bound (n i : nat) :
  i ∈ resources_of_loads n -> (i < 3 * n)%nat.
Proof.
  induction n as [|n IH]; intros H.
  - apply elem_of_nil in H. destruct H.
  - rewrite resources_of_loads_S in H. apply elem_of_app in H.
    destruct H as [H|H]; [apply IH in H; lia|].
    apply elem_of_cons in H. destruct H as [->|H]; [lia|].
    apply list_elem_of_singleton in H. lia.
Qed.

Lemma resources_of_loads_NoDup (n : nat) : NoDup (resources_of_loads n).
Proof.
  induction n as [|n IH]; [constructor|].
  rewrite resources_of_loads_S. apply NoDup_app. split; [exact IH|]. split.
  - intros i Hi Hin. apply resources_of_loads_bound in Hi.
    apply elem_of_cons in Hin. destruct Hin as [->|Hin]; [lia|].
    apply list_elem_of_singleton in Hin. lia.
  - apply NoDup_cons. split; [|apply NoDup_singleton].
    intros H. apply list_elem_of_singleton in H. lia.
Qed.

Section Runtime.
Variable StringToNumber : string -> float.
Variable ObjectToNumber : Json.value -> option float.

(** The store after an invocation, followed alone, that succeeds. *)
Lemma completed_builds (shapeName : string) (r1 r2 : FetchResult) (st : State)
    (rawPoints statsData : Json.value) (positions : list float) :
  then_json r1 = Some rawPoints ->
  then_json r2 = Some statsData ->
  positions_of StringToNumber ObjectToNumber rawPoints = Some positions ->
  let st' := completed StringToNumber ObjectToNumber shapeName r1 r2 st in
  scene st' = Three.add (Three.PointCloud (built_points shapeName positions (next_id st)))
                (scene_without (pointsRef st) (scene st)) /\
  pointsRef st' = Some (built_points shapeName positions (next_id st)) /\
  disposed st' = disposed st ++ resources (pointsRef st) /\
  next_id st' = S (S (S (next_id st))) /\
  stats st' = statsData /\ error st' = None /\ loading st' = false /\
  shape st' = shape st.
Proof.
  intros E1 E2 Hp. unfold completed, run_alone, loadShape. cbn [resume].
  rewrite E1. cbn [resume]. rewrite E2.
  match goal with |- context [update_scene _ _ _ _ _ ?s] =>
    destruct (StoreFacts.update_scene_builds StringToNumber ObjectToNumber
                shapeName rawPoints statsData s positions Hp)
      as (st' & -> & Hsh & _ & He & _ & _ & Hs & Hsc & Hr & Hd & Hn & _)
  end.
  cbn in *. rewrite Hs, Hr, Hsc, Hd, He, Hn, Hsh. repeat split; reflexivity.
Qed.

(** The store after an invocation, followed alone, whose bodies parse but
    whose position buffer cannot be built. *)
Lemma completed_build_fails (shapeName : string) (r1 r2 : FetchResult) (st : State)
    (rawPoints statsData : Json.value) :
  then_json r1 = Some rawPoints ->
  then_json r2 = Some statsData ->
  positions_of StringToNumber ObjectToNumber rawPoints = None ->
  let st' := completed StringToNumber ObjectToNumber shapeName r1 r2 st in
  scene st' = scene_without (pointsRef st) (scene st) /\
  pointsRef st' = pointsRef st /\
  disposed st' = disposed st ++ resources (pointsRef st) /\
  next_id st' = S (next_id st) /\
  stats st' = statsData /\ error st' = Some backend_message /\
  loading st' = false /\ shape st' = shape st /\
  trace st' =
    trace st
    ++ [SetLoading true; SetError None;
        Fetch (points_url shapeName); Settled (points_url shapeName);
        Fetch (stats_url shapeName); Settled (stats_url shapeName);
        SetStats statsData]
    ++ release_effects (pointsRef st)
    ++ [NewGeometry (next_id st); SetError (Some backend_message);
        SetLoading false].
Proof.
  intros E1 E2 Hp. unfold completed, run_alone, loadShape. cbn [resume].
  rewrite E1. cbn [resume]. rewrite E2.
  match goal with |- context [update_scene _ _ _ _ _ ?s] =>
    destruct (StoreFacts.update_scene_throws StringToNumber ObjectToNumber
                shapeName rawPoints statsData s Hp)
      as (st' & -> & Hsh & _ & _ & _ & _ & Hs & Hsc & Hr & Hd & Hn & Ht)
  end.
  cbn in *. rewrite Hs, Hr, Hsc, Hd, Hn, Hsh, Ht.
  repeat split; try reflexivity.
  rewrite <- !app_assoc. cbn. rewrite <- !app_assoc. reflexivity.
Qed.

Lemma remove_attached (p : Three.Points) :
  Three.remove p [Three.GridHelper; Three.AxesHelper; Three.PointCloud p]
  = [Three.GridHelper; Three.AxesHelper].
Proof.
  unfold Three.remove.
  rewrite filter_cons_True by reflexivity.
  rewrite filter_cons_True by reflexivity.
  rewrite filter_cons_False; [reflexivity|].
  cbn [Three.is_object]. rewrite Nat.eqb_refl. discriminate.
Qed.

Lemma load_all_snoc (st : State) (loads : list Load) (l : Load) :
  load_all StringToNumber ObjectToNumber st (loads ++ [l]) =
  load_one StringToNumber ObjectToNumber
    (load_all StringToNumber ObjectToNumber st loads) l.
Proof. unfold load_all. rewrite fold_left_app. reflexivity. Qed.

(** X1: after any non-empty sequence of successful loads, run one after
    the other from the start of a session, the scene holds the grid, the
    axes and exactly one point cloud, which is the current render object
    and was built for the last name loaded; the geometry and the material
    of every earlier cloud have been disposed, each exactly once, and
    nothing else has. *)
Theorem successive_loads_hold_one_cloud (loads : list Load) (l : Load) :
  Forall (succeeds StringToNumber ObjectToNumber) (loads ++ [l]) ->
  let st := load_all StringToNumber ObjectToNumber unmounted (loads ++ [l]) in
  let n := length loads in
  exists positions : list float,
    pointsRef st = Some (built_points l.1.1 positions (3 * n)) /\
    scene st = [Three.GridHelper; Three.AxesHelper;
                Three.PointCloud (built_points l.1.1 positions (3 * n))] /\
    disposed st = resources_of_loads n /\
    NoDup (disposed st) /\
    next_id st = (3 * S n)%nat.
Proof.
  cbv zeta. revert l. induction loads as [|l' loads IH] using rev_ind; intros l H.
  - apply Forall_app in H. destruct H as [_ H].
    apply (proj1 (Forall_singleton _ _)) in H.
    destruct H as (raw & sd & pos & E1 & E2 & Hp).
    exists pos.
    change (load_all StringToNumber ObjectToNumber unmounted ([] ++ [l]))
      with (completed StringToNumber ObjectToNumber l.1.1 l.1.2 l.2 unmounted).
    destruct (completed_builds l.1.1 l.1.2 l.2 unmounted raw sd pos E1 E2 Hp)
      as (Hsc & Hr & Hd & Hn & _).
    rewrite Hsc, Hr, Hd, Hn. cbn. repeat split; try reflexivity. constructor.
  - apply Forall_app in H. destruct H as [H Hl].
    apply (proj1 (Forall_singleton _ _)) in Hl.
    destruct Hl as (raw & sd & pos & E1 & E2 & Hp).
    destruct (IH l' H) as (pos' & Hr' & Hsc' & Hd' & _ & Hn').
    exists pos. rewrite load_all_snoc.
    set (st1 := load_all StringToNumber ObjectToNumber unmounted (loads ++ [l'])) in *.
    change (load_one StringToNumber ObjectToNumber st1 l)
      with (completed StringToNumber ObjectToNumber l.1.1 l.1.2 l.2 st1).
    destruct (completed_builds l.1.1 l.1.2 l.2 st1 raw sd pos E1 E2 Hp)
      as (Hsc & Hr & Hd & Hn & _).
    rewrite length_app. cbn [length].
    replace (length loads + 1)%nat with (S (length loads)) by lia.
    assert (Hres : disposed
                     (completed StringToNumber ObjectToNumber l.1.1 l.1.2 l.2 st1)
                   = resources_of_loads (S (length loads))).
    { rewrite Hd, Hd', Hr', resources_of_loads_S. cbn [resources built_points
        Three.geometry Three.material Three.geometry_id Three.material_id].
      replace (3 * length loads + 1)%nat with (S (3 * length loads)) by lia.
      reflexivity. }
    rewrite Hsc, Hr, Hn, Hn', Hres, Hr', Hsc'.
    cbn [scene_without]. rewrite remove_attached.
    split; [reflexivity|]. split; [reflexivity|]. split; [reflexivity|].
    split; [apply resources_of_loads_NoDup|lia].
Qed.

(** X2: when the bodies of a load parse but its position buffer cannot be
    built, the current render object is removed from the scene and its
    geometry and material are disposed, yet [pointsRef] keeps referring to
    it; the next successful load then removes and disposes that same object
    a second time. *)
Theorem failed_build_leaves_stale_reference (name1 name2 : string)
    (r1 r2 r3 r4 : FetchResult) (st : State) (old : Three.Points)
    (raw1 stats1 raw2 stats2 : Json.value) (positions : list float) :
  pointsRef st = Some old ->
  clouds (scene st) = [old] ->
  then_json r1 = Some raw1 -> then_json r2 = Some stats1 ->
  positions_of StringToNumber ObjectToNumber raw1 = None ->
  then_json r3 = Some raw2 -> then_json r4 = Some stats2 ->
  positions_of StringToNumber ObjectToNumber raw2 = Some positions ->
  let st1 := completed StringToNumber ObjectToNumber name1 r1 r2 st in
  let st2 := completed StringToNumber ObjectToNumber name2 r3 r4 st1 in
  clouds (scene st1) = [] /\
  pointsRef st1 = Some old /\
  disposed st1 = disposed st ++ resources (Some old) /\
  disposed st2 = disposed st ++ resources (Some old) ++ resources (Some old) /\
  clouds (scene st2) = [built_points name2 positions (S (next_id st))] /\
  pointsRef st2 = Some (built_points name2 positions (S (next_id st))).
Proof.
  intros Hold Hcl E1 E2 Hp1 E3 E4 Hp2. cbv zeta.
  destruct (completed_build_fails name1 r1 r2 st raw1 stats1 E1 E2 Hp1)
    as (Hsc1 & Hr1 & Hd1 & Hn1 & _).
  set (st1 := completed StringToNumber ObjectToNumber name1 r1 r2 st) in *.
  destruct (completed_builds name2 r3 r4 st1 raw2 stats2 positions E3 E4 Hp2)
    as (Hsc2 & Hr2 & Hd2 & Hn2 & _).
  rewrite Hold in Hsc1, Hr1, Hd1. cbn [scene_without] in Hsc1.
  assert (Hc1 : clouds (scene st1) = []).
  { rewrite Hsc1. apply clouds_remove_only, Hcl. }
  rewrite Hr1 in Hsc2, Hd2. cbn [scene_without] in Hsc2.
  split; [exact Hc1|]. split; [exact Hr1|]. split; [exact Hd1|].
  split; [rewrite Hd2, Hd1, <- app_assoc; reflexivity|].
  split.
  - rewrite Hsc2. unfold Three.add. rewrite clouds_app.
    rewrite (clouds_remove_none old _ Hc1), Hn1. reflexivity.
  - rewrite Hr2, Hn1. reflexivity.
Qed.

(** X3: whether an invocation ends in its [catch] clause is decided by the
    bodies alone: it fails exactly when a request is rejected or a body is
    not JSON, or when the points body parses but no position buffer can be
    built from it.  The status of a response is never consulted. *)
Theorem failure_is_decided_by_the_bodies (shapeName : string)
    (r1 r2 : FetchResult) (st : State) :
  (failed StringToNumber ObjectToNumber shapeName r1 r2 st = true <->
   then_json r1 = None \/ then_json r2 = None \/
   exists rawPoints, then_json r1 = Some rawPoints /\
     positions_of StringToNumber ObjectToNumber rawPoints = None) /\
  forall (s1 s2 s1' s2' : Z) (b1 b2 : option Json.value),
    completed StringToNumber ObjectToNumber shapeName
      (Response s1 b1) (Response s2 b2) st =
    completed StringToNumber ObjectToNumber shapeName
      (Response s1' b1) (Response s2' b2) st.
Proof.
  split; [|reflexivity].
  unfold failed.
  destruct (then_json r1) as [raw|] eqn:E1.
  - destruct (then_json r2) as [sd|] eqn:E2.
    + destruct (positions_of StringToNumber ObjectToNumber raw) as [pos|] eqn:Hp.
      * destruct (completed_builds shapeName r1 r2 st raw sd pos E1 E2 Hp)
          as (_ & _ & _ & _ & _ & He & _).
        rewrite He. split; [discriminate|].
        intros [H|[H|(raw' & H & Hn)]]; try discriminate.
        injection H as <-. rewrite Hp in Hn. discriminate.
      * destruct (completed_build_fails shapeName r1 r2 st raw sd E1 E2 Hp)
          as (_ & _ & _ & _ & _ & He & _).
        rewrite He. split; [|reflexivity].
        intros _. right. right. exists raw. split; [reflexivity|exact Hp].
    + split; [intros _; right; left; reflexivity|].
      intros _. unfold completed, run_alone, loadShape. cbn [resume].
      rewrite E1. cbn [resume]. rewrite E2. reflexivity.
  - split; [intros _; left; reflexivity|].
    intros _. unfold completed, run_alone, loadShape. cbn [resume].
    rewrite E1. reflexivity.
Qed.

(** X4: the two requests are sequential.  When the points request is
    rejected or its body is not JSON, the stats request is never issued and
    the second response plays no part; when the stats request fails, the
    store has not been touched. *)
Theorem failed_request_effects (shapeName : string) (r1 r2 : FetchResult)
    (st : State) :
  (then_json r1 = None ->
   trace (completed StringToNumber ObjectToNumber shapeName r1 r2 st) =
     trace st ++ [SetLoading true; SetError None;
                  Fetch (points_url shapeName); Settled (points_url shapeName);
                  SetError (Some backend_message); SetLoading false]) /\
  (forall rawPoints : Json.value,
     then_json r1 = Some rawPoints -> then_json r2 = None ->
     trace (completed StringToNumber ObjectToNumber shapeName r1 r2 st) =
       trace st ++ [SetLoading true; SetError None;
                    Fetch (points_url shapeName); Settled (points_url shapeName);
                    Fetch (stats_url shapeName); Settled (stats_url shapeName);
                    SetError (Some backend_message); SetLoading false]).
Proof.
  split.
  - intros E1. unfold completed, run_alone, loadShape. cbn [resume].
    rewrite E1. cbn. rewrite <- !app_assoc. reflexivity.
  - intros raw E1 E2. unfold completed, run_alone, loadShape. cbn [resume].
    rewrite E1. cbn [resume]. rewrite E2. cbn. rewrite <- !app_assoc. reflexivity.
Qed.

End Runtime.

End SessionFacts.

(** ** Every state the viewer can reach *)

Module ReachFacts.
Import Store Session.

Section Runtime.
Variable StringToNumber : string -> float.
Variable ObjectToNumber : Json.value -> option float.

(** What a resumption does to the store: nothing, or the replacement of
    the render object, or the part of it that precedes a failed build. *)
Lemma resume_store (p : Pending) (r : FetchResult) (st : State) :
  let st' := fst (resume StringToNumber ObjectToNumber p r st) in
  (scene st' = scene st /\ pointsRef st' = pointsRef st /\
   disposed st' = disposed st /\ next_id st' = next_id st) \/
  (exists (shapeName : string) (positions : list float),
     scene st' = Three.add (Three.PointCloud
                   (built_points shapeName positions (next_id st)))
                   (scene_without (pointsRef st) (scene st)) /\
     pointsRef st' = Some (built_points shapeName positions (next_id st)) /\
     disposed st' = disposed st ++ resources (pointsRef st) /\
     next_id st' = S (S (S (next_id st)))) \/
  (scene st' = scene_without (pointsRef st) (scene st) /\
   pointsRef st' = pointsRef st /\
   disposed st' = disposed st ++ resources (pointsRef st) /\
   next_id st' = S (next_id st)).
Proof.
  destruct p as [name|name raw]; cbn [resume];
    destruct (then_json r) as [body|];
    try (left; cbn; repeat split; reflexivity).
  destruct (positions_of StringToNumber ObjectToNumber raw) as [pos|] eqn:Hp.
  - right. left. exists name, pos.
    destruct (StoreFacts.update_scene_builds StringToNumber ObjectToNumber
                name raw body (log (Settled (stats_url name)) st) pos Hp)
      as (st' & -> & _ & _ & _ & _ & _ & _ & Hsc & Hr & Hd & Hn & _).
    cbn in *. repeat split; assumption.
  - right. right.
    destruct (StoreFacts.update_scene_throws StringToNumber ObjectToNumber
                name raw body (log (Settled (stats_url name)) st) Hp)
      as (st' & -> & _ & _ & _ & _ & _ & _ & Hsc & Hr & Hd & Hn & _).
    cbn in *. repeat split; assumption.
Qed.

Lemma resources_below (st : State) (i : nat) :
  tidy st -> i ∈ resources (pointsRef st) -> (i < next_id st)%nat.
Proof.
  intros (_ & Hp & _) Hi. destruct (pointsRef st) as [q|] eqn:E.
  - destruct (Hp q eq_refl) as [Hg Hm]. cbn [resources] in Hi.
    apply elem_of_cons in Hi. destruct Hi as [->|Hi]; [exact Hg|].
    apply list_elem_of_singleton in Hi. subst i. exact Hm.
  - apply elem_of_nil in Hi. destruct Hi.
Qed.

Lemma scene_without_clouds (st : State) :
  tidy st -> clouds (scene_without (pointsRef st) (scene st)) = [].
Proof.
  intros (_ & _ & [H|(p & H & E & _)]).
  - destruct (pointsRef st) as [q|]; cbn [scene_without]; [|exact H].
    apply SessionFacts.clouds_remove_none, H.
  - rewrite E. cbn [scene_without]. apply SessionFacts.clouds_remove_only, H.
Qed.

(** A resumption keeps the store tidy. *)
Lemma resume_tidy (p : Pending) (r : FetchResult) (st : State) :
  tidy st -> tidy (fst (resume StringToNumber ObjectToNumber p r st)).
Proof.
  intros Ht. pose proof Ht as (Hd & Hp & Hc).
  destruct (resume_store p r st)
    as [(Es & Er & Ed & En)|[(name & pos & Es & Er & Ed & En)|(Es & Er & Ed & En)]];
    unfold tidy; rewrite Es, Er, Ed, En.
  - exact Ht.
  - assert (Hall : forall i, i ∈ disposed st ++ resources (pointsRef st) ->
                             (i < next_id st)%nat).
    { intros i Hi. apply elem_of_app in Hi. destruct Hi as [Hi|Hi];
        [apply Hd, Hi|apply (resources_below st i Ht Hi)]. }
    split; [intros i Hi; apply Hall in Hi; lia|]. split.
    + intros q Hq. injection Hq as <-. cbn. lia.
    + right. exists (built_points name pos (next_id st)).
      unfold Three.add. rewrite SessionFacts.clouds_app, (scene_without_clouds st Ht).
      split; [reflexivity|]. split; [reflexivity|].
      cbn [built_points Three.geometry Three.material Three.geometry_id
           Three.material_id].
      split; intros Hi; apply Hall in Hi; lia.
  - split.
    + intros i Hi. apply elem_of_app in Hi. destruct Hi as [Hi|Hi];
        [apply Hd in Hi|apply (resources_below st i Ht) in Hi]; lia.
    + split; [intros q Hq; destruct (Hp q Hq); lia|].
      left. apply (scene_without_clouds st Ht).
Qed.

Lemma tidy_ext (st st' : State) :
  scene st' = scene st -> pointsRef st' = pointsRef st ->
  disposed st' = disposed st -> next_id st' = next_id st ->
  tidy st -> tidy st'.
Proof. unfold tidy. intros -> -> -> ->. exact (fun H => H). Qed.

Lemma unmounted_tidy : tidy unmounted.
Proof.
  split; [|split].
  - intros i Hi. apply elem_of_nil in Hi. destruct Hi.
  - intros p Hp. discriminate.
  - left. reflexivity.
Qed.

(** An invocation followed alone keeps the store tidy. *)
Lemma completed_tidy (shapeName : string) (r1 r2 : FetchResult) (st : State) :
  tidy st -> tidy (completed StringToNumber ObjectToNumber shapeName r1 r2 st).
Proof.
  intros Ht. unfold completed, run_alone.
  destruct (loadShape shapeName st) as [st0 p0] eqn:E0.
  assert (H0 : tidy st0).
  { injection E0 as <- _. eapply tidy_ext; [| | | |exact Ht]; reflexivity. }
  pose proof (resume_tidy p0 r1 st0 H0) as H1.
  destruct (resume _ _ p0 r1 st0) as [st1 p1]. cbn [fst] in H1.
  destruct p1 as [p1|]; [|exact H1].
  pose proof (resume_tidy p1 r2 st1 H1) as H2.
  destruct (resume _ _ p1 r2 st1) as [st2 p2]. cbn [fst] in H2. exact H2.
Qed.

Lemma cloud_among_clouds (p : Three.Points) (l : list Three.Object3D) :
  Three.PointCloud p ∈ l -> p ∈ clouds l.
Proof.
  intros H. unfold clouds. apply list_elem_of_In, in_flat_map.
  exists (Three.PointCloud p). split; [apply list_elem_of_In, H|].
  left. reflexivity.
Qed.

(** C3: on the success path the effects are, in this order: the loading
    flag set, the error cleared, the points request issued and settled, the
    stats request issued and settled, the stats updated, the previous render
    object (if any) removed from the scene and its geometry and material
    disposed, the new geometry, material and render object constructed, the
    render object added to the scene and recorded as current, and the
    loading flag cleared.  The new render object is then the last child of
    the scene; in a tidy store, as every store of a session is, it is the
    only point cloud of the scene and the previous render object is no
    longer a child. *)
Theorem success_effects_in_order (shapeName : string) (r1 r2 : FetchResult)
    (st : State) (rawPoints statsData : Json.value) (positions : list float) :
  then_json r1 = Some rawPoints ->
  then_json r2 = Some statsData ->
  positions_of StringToNumber ObjectToNumber rawPoints = Some positions ->
  let st' := completed StringToNumber ObjectToNumber shapeName r1 r2 st in
  let new := built_points shapeName positions (next_id st) in
  trace st' =
    trace st
    ++ [SetLoading true; SetError None;
        Fetch (points_url shapeName); Settled (points_url shapeName);
        Fetch (stats_url shapeName); Settled (stats_url shapeName);
        SetStats statsData]
    ++ release_effects (pointsRef st)
    ++ build_effects (next_id st)
    ++ [SetLoading false] /\
  stats st' = statsData /\
  pointsRef st' = Some new /\
  scene st' = Three.add (Three.PointCloud new)
                (scene_without (pointsRef st) (scene st)) /\
  disposed st' = disposed st ++ resources (pointsRef st) /\
  error st' = None /\ loading st' = false /\
  last (scene st') = Some (Three.PointCloud new) /\
  (tidy st ->
   clouds (scene st') = [new] /\
   forall old : Three.Points,
     pointsRef st = Some old -> Three.PointCloud old ∉ scene st').
Proof.
  intros E1 E2 Hp.
  destruct (StoreFacts.completed_loads StringToNumber ObjectToNumber
              shapeName r1 r2 st rawPoints statsData positions E1 E2 Hp)
    as (Ht & Hs & Hr & Hsc & Hd & He & Hl).
  cbv zeta in *.
  split; [exact Ht|]. split; [exact Hs|]. split; [exact Hr|].
  split; [exact Hsc|]. split; [exact Hd|]. split; [exact He|].
  split; [exact Hl|].
  split; [rewrite Hsc; unfold Three.add; apply last_snoc|].
  intros Htidy.
  assert (Hc : clouds (scene (completed StringToNumber ObjectToNumber
                                shapeName r1 r2 st))
               = [built_points shapeName positions (next_id st)]).
  { rewrite Hsc. unfold Three.add.
    rewrite SessionFacts.clouds_app, (scene_without_clouds st Htidy). reflexivity. }
  split; [exact Hc|].
  intros old Hold Hin. apply cloud_among_clouds in Hin. rewrite Hc in Hin.
  apply list_elem_of_singleton in Hin.
  destruct Htidy as (_ & Hids & _). destruct (Hids old Hold) as [Hg _].
  rewrite Hin in Hg. cbn in Hg. lia.
Qed.

Lemma press_cases (c : Control) (st : State) :
  press c st = st \/ press c st = onClick c st.
Proof.
  unfold press. destruct (render st) as [buttons|]; [|left; reflexivity].
  destruct (find _ _) as [b|]; [|left; reflexivity].
  destruct (disabled b); [left|right]; reflexivity.
Qed.

(** Updates that call [setStats] with nothing the panel throws on leave the
    component as it was, rendered or not. *)
Lemma crashed_ext (st st' : State) (effects : list Effect) :
  stats st' = stats st -> trace st' = trace st ++ effects ->
  existsb throws_when_rendered effects = false ->
  crashed st' = crashed st.
Proof.
  intros Hs Ht Hl. unfold crashed.
  rewrite Hs, Ht, existsb_app, Hl, orb_false_r. reflexivity.
Qed.

Lemma rendered_ext (st st' : State) (effects : list Effect) :
  crashed st = false -> panel_renders (stats st') = true ->
  trace st' = trace st ++ effects ->
  existsb throws_when_rendered effects = false ->
  crashed st' = false.
Proof.
  unfold crashed. intros Hc Hs Ht Hl. apply orb_false_elim in Hc as [_ Hc].
  rewrite Hs, Ht, existsb_app, Hc, Hl. reflexivity.
Qed.

Section Pointer.
Variables Math_sin Math_cos : float -> float.

Lemma step_tidy (st : State) (e : Event) :
  tidy st -> tidy (step StringToNumber ObjectToNumber Math_sin Math_cos st e).
Proof.
  intros Ht. destruct e as [c|i r|i]; cbn [step].
  - destruct (press_cases c st) as [->| ->]; [exact Ht|].
    destruct c; (eapply tidy_ext; [| | | |exact Ht]; reflexivity).
  - unfold settle. destruct (inflight st !! i) as [p|]; [|exact Ht].
    pose proof (resume_tidy p r (with_inflight (delete i (inflight st)) st)) as H.
    destruct (resume _ _ p r _) as [s' next]. cbn [fst] in H.
    assert (Hs : tidy s').
    { apply H. eapply tidy_ext; [| | | |exact Ht]; reflexivity. }
    destruct next; [|exact Hs].
    eapply tidy_ext; [| | | |exact Hs]; reflexivity.
  - eapply tidy_ext; [| | | |exact Ht]; reflexivity.
Qed.

Lemma steps_tidy (events : list Event) : forall st : State,
  tidy st -> tidy (steps StringToNumber ObjectToNumber Math_sin Math_cos st events).
Proof.
  induction events as [|e events IH]; intros st Ht; [exact Ht|].
  unfold steps. cbn [fold_left]. apply IH, step_tidy, Ht.
Qed.

Lemma mounted_tidy : tidy mounted.
Proof.
  split; [|split].
  - intros i Hi. apply elem_of_nil in Hi. destruct Hi.
  - intros p Hp. discriminate.
  - left. reflexivity.
Qed.

(** X5: whatever the user does and whatever the backend answers, in any
    order, the scene never holds more than one point cloud; a cloud that is
    in the scene is the current render object, and neither its geometry nor
    its material has been disposed. *)
Theorem scene_holds_at_most_the_current_cloud (events : list Event) :
  let st := steps StringToNumber ObjectToNumber Math_sin Math_cos mounted events in
  clouds (scene st) = [] \/
  exists p : Three.Points,
    clouds (scene st) = [p] /\ pointsRef st = Some p /\
    (Three.geometry_id (Three.geometry p) ∉ disposed st) /\
    (Three.material_id (Three.material p) ∉ disposed st).
Proof.
  cbv zeta. exact (proj2 (proj2 (steps_tidy events mounted mounted_tidy))).
Qed.

Lemma step_idle (st : State) (e : Event) :
  (inflight st = [] -> loading st = false) ->
  inflight (step StringToNumber ObjectToNumber Math_sin Math_cos st e) = [] ->
  loading (step StringToNumber ObjectToNumber Math_sin Math_cos st e) = false.
Proof.
  intros IH. destruct e as [c|i r|i]; cbn [step].
  - destruct (press_cases c st) as [->| ->]; [exact IH|].
    destruct c; cbn; intros H; destruct (inflight st); discriminate.
  - unfold settle. destruct (inflight st !! i) as [p|]; [|exact IH].
    pose proof (StoreFacts.resume_frame StringToNumber ObjectToNumber p r
                  (with_inflight (delete i (inflight st)) st)) as (_ & _ & _ & Hl).
    destruct (resume _ _ p r _) as [s' next]. cbn [fst snd] in Hl.
    destruct next as [p'|]; cbn [is_done] in Hl.
    + cbn. intros H. destruct (inflight s'); discriminate.
    + intros _. exact Hl.
  - exact IH.
Qed.

Lemma steps_idle (events : list Event) : forall st : State,
  (inflight st = [] -> loading st = false) ->
  inflight (steps StringToNumber ObjectToNumber Math_sin Math_cos st events) = [] ->
  loading (steps StringToNumber ObjectToNumber Math_sin Math_cos st events) = false.
Proof.
  induction events as [|e events IH]; intros st H; [exact H|].
  unfold steps. cbn [fold_left]. apply IH, step_idle, H.
Qed.

(** X6: the loading flag is never left set: in every state the viewer can
    reach, if no invocation of [loadShape] is suspended then the flag is
    cleared. *)
Theorem no_load_in_flight_no_flag (events : list Event) :
  let st := steps StringToNumber ObjectToNumber Math_sin Math_cos mounted events in
  inflight st = [] -> loading st = false.
Proof.
  cbv zeta. apply steps_idle. discriminate.
Qed.

Lemma requested_app (l1 l2 : list Effect) :
  requested (l1 ++ l2) = requested l1 ++ requested l2.
Proof. unfold requested. apply flat_map_app. Qed.

Lemma known_url_of_shape (s : string) :
  s ∈ SHAPES -> points_url s ∈ known_urls /\ stats_url s ∈ known_urls.
Proof.
  intros H. unfold known_urls.
  split; apply list_elem_of_In, in_flat_map; exists s;
    (split; [apply list_elem_of_In, H|]); cbn; auto.
Qed.

(** Only the buttons of the enumeration exist. *)
Lemma press_shape_cases (s : string) (st : State) :
  press (ShapeButton s) st = st \/
  (s ∈ SHAPES /\ press (ShapeButton s) st = invoke s (setShape s st)).
Proof.
  unfold press, render, SHAPES.
  destruct (crashed st); [left; reflexivity|].
  cbn [map app find control same_control disabled].
  repeat match goal with
  | |- context [String.eqb ?a s] =>
      destruct (String.eqb_spec a s) as [<-|_];
      [right; split; [set_solver|reflexivity]|]
  end.
  left. reflexivity.
Qed.

Lemma resume_name (p p' : Pending) (r : FetchResult) (st : State) :
  snd (resume StringToNumber ObjectToNumber p r st) = Some p' ->
  pending_name p' = pending_name p.
Proof.
  destruct p as [name|name raw]; cbn [resume];
    destruct (then_json r) as [body|]; cbn; try discriminate.
  - intros H. injection H as <-. reflexivity.
  - destruct (update_scene _ _ _ _ _ _) as [s' [[]|]]; discriminate.
Qed.

(** The requests a resumption issues. *)
Lemma resume_requests (p : Pending) (r : FetchResult) (st : State) :
  requested (trace (fst (resume StringToNumber ObjectToNumber p r st))) =
  requested (trace st) ++
  match p, then_json r with
  | AwaitingPoints shapeName, Some _ => [stats_url shapeName]
  | _, _ => []
  end.
Proof.
  destruct p as [name|name raw]; cbn [resume];
    destruct (then_json r) as [body|];
    try (cbn; rewrite !requested_app; cbn; rewrite ?app_nil_r; reflexivity).
  destruct (positions_of StringToNumber ObjectToNumber raw) as [pos|] eqn:Hp.
  - destruct (StoreFacts.update_scene_builds StringToNumber ObjectToNumber
                name raw body (log (Settled (stats_url name)) st) pos Hp)
      as (st' & -> & _ & _ & _ & _ & _ & _ & _ & _ & _ & _ & Ht).
    cbn in *. rewrite Ht, !requested_app. cbn.
    rewrite !requested_app. destruct (pointsRef st); cbn; rewrite ?app_nil_r; reflexivity.
  - destruct (StoreFacts.update_scene_throws StringToNumber ObjectToNumber
                name raw body (log (Settled (stats_url name)) st) Hp)
      as (st' & -> & _ & _ & _ & _ & _ & _ & _ & _ & _ & _ & Ht).
    cbn in *. rewrite !requested_app, Ht, !requested_app. cbn.
    rewrite !requested_app. destruct (pointsRef st); cbn; rewrite ?app_nil_r; reflexivity.
Qed.

Lemma invoke_fields (s : string) (st : State) :
  shape (invoke s st) = shape st /\
  inflight (invoke s st) = inflight st ++ [AwaitingPoints s] /\
  requested (trace (invoke s st)) = requested (trace st) ++ [points_url s].
Proof.
  split; [reflexivity|]. split; [reflexivity|].
  change (trace (invoke s st))
    with (((trace st ++ [SetLoading true]) ++ [SetError None])
          ++ [Fetch (points_url s)]).
  rewrite !requested_app. cbn [requested flat_map app].
  rewrite !app_nil_r. reflexivity.
Qed.

Lemma invoke_only_known (s : string) (st : State) :
  s ∈ SHAPES -> shape st ∈ SHAPES ->
  Forall (fun p => pending_name p ∈ SHAPES) (inflight st) ->
  Forall (fun url => url ∈ known_urls) (requested (trace st)) ->
  only_known (invoke s st).
Proof.
  intros Hs Hsh Hin Hreq.
  destruct (invoke_fields s st) as (E1 & E2 & E3).
  unfold only_known, enumerated. rewrite E1, E2, E3.
  split; [split|].
  - exact Hsh.
  - apply Forall_app. split; [exact Hin|]. apply Forall_singleton. exact Hs.
  - apply Forall_app. split; [exact Hreq|].
    apply Forall_singleton, known_url_of_shape, Hs.
Qed.

Lemma step_only_known (st : State) (e : Event) :
  only_known st ->
  only_known (step StringToNumber ObjectToNumber Math_sin Math_cos st e).
Proof.
  intros H. pose proof H as ((Hsh & Hin) & Hreq).
  destruct e as [c|i r|i]; cbn [step].
  - destruct c as [s|].
    + destruct (press_shape_cases s st) as [->|(Hs & ->)]; [exact H|].
      apply invoke_only_known.
      * exact Hs.
      * exact Hs.
      * exact Hin.
      * change (trace (setShape s st)) with (trace st ++ [SetShape s]).
        rewrite requested_app. cbn [requested flat_map app].
        rewrite app_nil_r. exact Hreq.
    + destruct (press_cases ReloadButton st) as [->| ->]; [exact H|].
      apply invoke_only_known; assumption.
  - unfold settle. destruct (inflight st !! i) as [p|] eqn:Ei; [|exact H].
    assert (Hp : pending_name p ∈ SHAPES).
    { exact (proj1 (Forall_lookup _ _) Hin i p Ei). }
    pose proof (StoreFacts.resume_frame StringToNumber ObjectToNumber p r
                  (with_inflight (delete i (inflight st)) st)) as (_ & Hi & Hs & _).
    pose proof (resume_requests p r (with_inflight (delete i (inflight st)) st)) as Hr.
    pose proof (resume_name p) as Hn.
    specialize (fun p' => Hn p' r (with_inflight (delete i (inflight st)) st)).
    destruct (resume _ _ p r _) as [s' next]. cbn [fst snd] in *.
    assert (Hdel : Forall (fun q => pending_name q ∈ SHAPES) (inflight s')).
    { rewrite Hi. cbn. apply Forall_delete, Hin. }
    assert (Hreq' : Forall (fun url => url ∈ known_urls) (requested (trace s'))).
    { rewrite Hr. cbn [trace with_inflight]. apply Forall_app. split; [exact Hreq|].
      destruct p as [name|name raw]; destruct (then_json r); try constructor.
      - apply known_url_of_shape, Hp.
      - constructor. }
    destruct next as [p'|].
    + split; [split|].
      * cbn. rewrite Hs. exact Hsh.
      * cbn. apply Forall_app. split; [exact Hdel|].
        apply Forall_singleton. rewrite (Hn p' eq_refl). exact Hp.
      * exact Hreq'.
    + split; [split|].
      * rewrite Hs. exact Hsh.
      * exact Hdel.
      * exact Hreq'.
  - exact H.
Qed.

Lemma steps_only_known (events : list Event) : forall st : State,
  only_known st ->
  only_known (steps StringToNumber ObjectToNumber Math_sin Math_cos st events).
Proof.
  induction events as [|e events IH]; intros st H; [exact H|].
  unfold steps. cbn [fold_left]. apply IH, step_only_known, H.
Qed.

(** X7: the viewer only ever asks for the enumerated shapes: in every
    state it can reach, the selection and the name of every suspended
    invocation are among the seven shapes, and every URL requested so far
    is the points or the stats resource of one of them. *)
Theorem only_enumerated_shapes_are_requested (events : list Event) :
  let st := steps StringToNumber ObjectToNumber Math_sin Math_cos mounted events in
  shape st ∈ SHAPES /\
  Forall (fun p => pending_name p ∈ SHAPES) (inflight st) /\
  Forall (fun url => url ∈ known_urls) (requested (trace st)).
Proof.
  cbv zeta.
  assert (H0 : only_known mounted).
  { apply invoke_only_known; [set_solver|set_solver|constructor|constructor]. }
  destruct (steps_only_known events mounted H0) as ((H1 & H2) & H3).
  split; [exact H1|]. split; [exact H2|exact H3].
Qed.

(** A press on a shape button calls [setStats] with nothing. *)
Lemma onClick_crashed (s : string) (st : State) :
  crashed (invoke s (setShape s st)) = crashed st.
Proof.
  apply (crashed_ext st _ [SetShape s; SetLoading true; SetError None;
                           Fetch (points_url s)]); [reflexivity| |reflexivity].
  change (trace (invoke s (setShape s st)))
    with ((((trace st ++ [SetShape s]) ++ [SetLoading true]) ++ [SetError None])
          ++ [Fetch (points_url s)]).
  rewrite <- !app_assoc. reflexivity.
Qed.

Lemma press_shape (s : string) (st : State) :
  s ∈ SHAPES -> crashed st = false ->
  press (ShapeButton s) st = invoke s (setShape s st).
Proof.
  intros Hs Hc. unfold press, render. rewrite Hc. unfold SHAPES in Hs |- *.
  repeat (apply elem_of_cons in Hs; destruct Hs as [->|Hs]; [reflexivity|]).
  apply elem_of_nil in Hs. destruct Hs.
Qed.

(** The points response of a suspended invocation arrives and parses. *)
Lemma settle_points (i : nat) (shapeName : string) (rawPoints : Json.value)
    (r : FetchResult) (st : State) :
  inflight st !! i = Some (AwaitingPoints shapeName) ->
  then_json r = Some rawPoints ->
  let st' := settle StringToNumber ObjectToNumber i r st in
  inflight st' = delete i (inflight st) ++ [AwaitingStats shapeName rawPoints] /\
  shape st' = shape st /\ stats st' = stats st /\
  pointsRef st' = pointsRef st /\ next_id st' = next_id st /\
  error st' = error st /\
  trace st' = trace st ++ [Settled (points_url shapeName);
                           Fetch (stats_url shapeName)].
Proof.
  intros Hi Hr. cbv zeta. unfold settle. rewrite Hi. cbn [resume]. rewrite Hr.
  cbn. rewrite <- !app_assoc. repeat split; reflexivity.
Qed.

(** The stats response of a suspended invocation arrives, parses, and the
    position buffer can be built. *)
Lemma settle_stats (i : nat) (shapeName : string) (rawPoints statsData : Json.value)
    (positions : list float) (r : FetchResult) (st : State) :
  inflight st !! i = Some (AwaitingStats shapeName rawPoints) ->
  then_json r = Some statsData ->
  positions_of StringToNumber ObjectToNumber rawPoints = Some positions ->
  let st' := settle StringToNumber ObjectToNumber i r st in
  inflight st' = delete i (inflight st) /\
  shape st' = shape st /\ stats st' = statsData /\
  pointsRef st' = Some (built_points shapeName positions (next_id st)) /\
  next_id st' = S (S (S (next_id st))) /\
  loading st' = false /\ error st' = error st /\
  scene st' = Three.add (Three.PointCloud
                (built_points shapeName positions (next_id st)))
                (scene_without (pointsRef st) (scene st)) /\
  trace st' = trace st ++ Settled (stats_url shapeName) :: SetStats statsData
                :: release_effects (pointsRef st) ++ build_effects (next_id st)
                ++ [SetLoading false].
Proof.
  intros Hi Hr Hp. cbv zeta. unfold settle. rewrite Hi. cbn [resume]. rewrite Hr.
  match goal with |- context [update_scene _ _ _ _ _ ?s] =>
    destruct (StoreFacts.update_scene_builds StringToNumber ObjectToNumber
                shapeName rawPoints statsData s positions Hp)
      as (st' & -> & Hsh & _ & He & _ & Hin & Hs & Hsc & Hpr & _ & Hn & Ht)
  end.
  cbn in *. rewrite Ht, <- !app_assoc. cbn. rewrite <- !app_assoc.
  repeat split; assumption.
Qed.

(** Neither removing and disposing the previous render object nor building
    the new one calls [setStats]. *)
Lemma scene_effects_render (current : option Three.Points) (n : nat) :
  existsb throws_when_rendered
    (release_effects current ++ build_effects n ++ [SetLoading false]) = false.
Proof. destruct current; reflexivity. Qed.

(** X8: responses that arrive out of order win in the order they arrive.
    When shape [a] and then shape [b] are selected in a rendered viewer, and
    the responses for [b] arrive before those for [a], each with stats the
    panel can show, the viewer ends with [b] selected but with the stats of
    [a] and with the cloud of [a] as its current render object and as the
    only cloud of the scene; no load is in flight, there is no error, and
    the component is still rendered. *)
Theorem late_responses_replace_newer_selection (a b : string)
    (rawA statsA rawB statsB : Json.value) (positionsA positionsB : list float)
    (st : State) :
  a ∈ SHAPES -> b ∈ SHAPES -> inflight st = [] ->
  tidy st -> crashed st = false ->
  panel_renders statsA = true -> panel_renders statsB = true ->
  positions_of StringToNumber ObjectToNumber rawA = Some positionsA ->
  positions_of StringToNumber ObjectToNumber rawB = Some positionsB ->
  let st' := steps StringToNumber ObjectToNumber Math_sin Math_cos st
               [Press (ShapeButton a); Press (ShapeButton b);
                Settle 1 (Response 200 (Some rawB));
                Settle 1 (Response 200 (Some statsB));
                Settle 0 (Response 200 (Some rawA));
                Settle 0 (Response 200 (Some statsA))] in
  let cloud := built_points a positionsA (S (S (S (next_id st)))) in
  shape st' = b /\
  stats st' = statsA /\
  pointsRef st' = Some cloud /\
  clouds (scene st') = [cloud] /\
  inflight st' = [] /\ loading st' = false /\ error st' = None /\
  crashed st' = false.
Proof.
  intros Ha Hb Hin Htidy Hc HsA HsB HpA HpB. cbv zeta.
  unfold steps. cbn [fold_left step].
  rewrite (press_shape a st Ha Hc).
  assert (Hca : crashed (invoke a (setShape a st)) = false).
  { rewrite onClick_crashed. exact Hc. }
  rewrite (press_shape b _ Hb Hca).
  set (s0 := invoke b (setShape b (invoke a (setShape a st)))).
  assert (H0 : inflight s0 = [AwaitingPoints a; AwaitingPoints b]
               /\ shape s0 = b /\ next_id s0 = next_id st /\ error s0 = None).
  { subst s0. cbn. rewrite Hin. repeat split; reflexivity. }
  destruct H0 as (I0 & S0 & N0 & E0).
  assert (T0 : tidy s0).
  { subst s0. eapply tidy_ext; [| | | |exact Htidy]; reflexivity. }
  assert (C0 : crashed s0 = false).
  { subst s0. rewrite onClick_crashed. exact Hca. }
  pose proof (step_tidy s0 (Settle 1 (Response 200 (Some rawB))) T0) as T1.
  cbn [step] in T1.
  destruct (settle_points 1 b rawB (Response 200 (Some rawB)) s0)
    as (I1 & S1 & St1 & _ & N1 & E1 & Tr1); [rewrite I0; reflexivity|reflexivity|].
  set (s1 := settle _ _ 1 _ s0) in *. rewrite I0 in I1. cbn in I1.
  assert (C1 : crashed s1 = false).
  { rewrite <- C0. apply (crashed_ext _ _ _ St1 Tr1). reflexivity. }
  pose proof (step_tidy s1 (Settle 1 (Response 200 (Some statsB))) T1) as T2.
  cbn [step] in T2.
  destruct (settle_stats 1 b rawB statsB positionsB (Response 200 (Some statsB)) s1)
    as (I2 & S2 & St2 & _ & N2 & _ & E2 & _ & Tr2);
    [rewrite I1; reflexivity|reflexivity|exact HpB|].
  set (s2 := settle _ _ 1 _ s1) in *. rewrite I1 in I2. cbn in I2.
  assert (C2 : crashed s2 = false).
  { refine (rendered_ext s1 s2 _ C1 _ Tr2 _); [rewrite St2; exact HsB|].
    cbn [existsb throws_when_rendered]. rewrite HsB. apply scene_effects_render. }
  pose proof (step_tidy s2 (Settle 0 (Response 200 (Some rawA))) T2) as T3.
  cbn [step] in T3.
  destruct (settle_points 0 a rawA (Response 200 (Some rawA)) s2)
    as (I3 & S3 & St3 & _ & N3 & E3 & Tr3); [rewrite I2; reflexivity|reflexivity|].
  set (s3 := settle _ _ 0 _ s2) in *. rewrite I2 in I3. cbn in I3.
  assert (C3 : crashed s3 = false).
  { rewrite <- C2. apply (crashed_ext _ _ _ St3 Tr3). reflexivity. }
  destruct (settle_stats 0 a rawA statsA positionsA (Response 200 (Some statsA)) s3)
    as (I4 & S4 & St4 & P4 & _ & L4 & E4 & Sc4 & Tr4);
    [rewrite I3; reflexivity|reflexivity|exact HpA|].
  set (s4 := settle _ _ 0 _ s3) in *. rewrite I3 in I4. cbn in I4.
  assert (N : next_id s3 = S (S (S (next_id st)))) by congruence.
  rewrite N in P4, Sc4.
  split; [congruence|]. split; [exact St4|]. split; [exact P4|].
  split.
  { rewrite Sc4. unfold Three.add.
    rewrite SessionFacts.clouds_app, (scene_without_clouds s3 T3). reflexivity. }
  split; [exact I4|]. split; [exact L4|]. split; [congruence|].
  refine (rendered_ext s3 s4 _ C3 _ Tr4 _); [rewrite St4; exact HsA|].
  cbn [existsb throws_when_rendered]. rewrite HsA. apply scene_effects_render.
Qed.







End Pointer.

End Runtime.

End ReachFacts.

(** ** Gestures: how pointer and wheel input compose *)

Module GestureFacts.
Import Orbit Gestures.

Section Trigonometry.
Variables Math_sin Math_cos : float -> float.

(** X9: outside a drag, pointer moves and releases do nothing: any
    sequence of them leaves the controller, camera included, as it was. *)
Theorem idle_pointer_is_ignored (inputs : list Input) (c : Controller) :
  isDragging c = false ->
  forallb is_move_or_release inputs = true ->
  run Math_sin Math_cos c inputs = c.
Proof.
  intros Hd. induction inputs as [|i inputs IH]; intros H; [reflexivity|].
  cbn [forallb] in H. apply andb_prop in H. destruct H as [Hi H].
  unfold run. cbn [fold_left].
  assert (E : handle Math_sin Math_cos c i = c).
  { destruct i as [cx cy| |cx cy|d]; try discriminate; cbn [handle].
    - destruct c; cbn in Hd; subst; reflexivity.
    - unfold onMouseMove. rewrite Hd. reflexivity. }
  rewrite E. apply IH, H.
Qed.

Lemma handle_radius (c c' : Controller) (i : Input) :
  radius c = radius c' ->
  radius (handle Math_sin Math_cos c i) =
  radius (if is_wheel i then handle Math_sin Math_cos c' i else c').
Proof.
  intros H. destruct i as [cx cy| |cx cy|d]; cbn [handle is_wheel].
  - exact H.
  - exact H.
  - unfold onMouseMove. destruct (isDragging c); exact H.
  - cbn. rewrite H. reflexivity.
Qed.

Lemma run_radius (inputs : list Input) : forall c c' : Controller,
  radius c = radius c' ->
  radius (run Math_sin Math_cos c inputs) =
  radius (run Math_sin Math_cos c' (List.filter is_wheel inputs)).
Proof.
  induction inputs as [|i inputs IH]; intros c c' H; [exact H|].
  unfold run. cbn [fold_left List.filter].
  pose proof (handle_radius c c' i H) as Hi.
  destruct (is_wheel i); cbn [fold_left]; apply IH, Hi.
Qed.

Lemma handle_drag (c c' : Controller) (i : Input) :
  same_drag c c' ->
  same_drag (handle Math_sin Math_cos c i)
            (if is_wheel i then c' else handle Math_sin Math_cos c' i).
Proof.
  intros (H1 & H2 & H3 & H4). destruct i as [cx cy| |cx cy|d]; cbn [handle is_wheel].
  - repeat split; cbn; assumption.
  - repeat split; cbn; assumption.
  - unfold onMouseMove. rewrite <- H1.
    destruct (isDragging c) eqn:E; cbn [negb].
    + repeat split; cbn; rewrite <- ?H2, <- ?H3, <- ?H4; reflexivity.
    + repeat split; try assumption. congruence.
  - repeat split; cbn; assumption.
Qed.

Lemma run_drag (inputs : list Input) : forall c c' : Controller,
  same_drag c c' ->
  same_drag (run Math_sin Math_cos c inputs)
            (run Math_sin Math_cos c' (List.filter (fun i => negb (is_wheel i)) inputs)).
Proof.
  induction inputs as [|i inputs IH]; intros c c' H; [exact H|].
  unfold run. cbn [fold_left List.filter].
  pose proof (handle_drag c c' i H) as Hi.
  destruct (is_wheel i); cbn [negb fold_left]; apply IH, Hi.
Qed.

(** X10: zooming and orbiting do not interfere, however the events
    interleave: the radius after a sequence of inputs is the one its wheel
    events alone produce, and the angles, the drag state and the recorded
    pointer position are the ones its pointer events alone produce. *)
Theorem zoom_and_orbit_are_independent (inputs : list Input) (c : Controller) :
  radius (run Math_sin Math_cos c inputs) =
    radius (run Math_sin Math_cos c (List.filter is_wheel inputs)) /\
  same_drag (run Math_sin Math_cos c inputs)
    (run Math_sin Math_cos c (List.filter (fun i => negb (is_wheel i)) inputs)).
Proof.
  split.
  - apply run_radius. reflexivity.
  - apply run_drag. repeat split; reflexivity.
Qed.

End Trigonometry.

End GestureFacts.

(** ** Inputs that carry no displacement *)

Module RestFacts.
Import Orbit.

(** Two numbers that compare equal are the same value, unless both are
    zeros (which may differ in sign). *)
Lemma SFcompare_Eq_eq (x y : spec_float) :
  SFcompare x y = Some Eq -> (forall s, x <> S754_zero s) -> x = y.
Proof.
  intros H Hz.
  destruct x as [sx|sx| |sx mx ex]; [destruct (Hz sx eq_refl)| | |];
    destruct y as [sy|sy| |sy my ey]; cbn [SFcompare] in H;
    try discriminate;
    try (destruct sx; discriminate); try (destruct sy; discriminate).
  - destruct sx, sy; try discriminate; reflexivity.
  - change (Pos.compare_cont Eq mx my) with (Pos.compare mx my) in H.
    destruct sx, sy; try discriminate;
      destruct (Z.compare ex ey) eqn:Ee; try discriminate;
      apply Z.compare_eq in Ee; subst ey;
      destruct (Pos.compare mx my) eqn:Em; try discriminate;
      apply Pos.compare_eq in Em; subst my; reflexivity.
Qed.

Lemma is_zero_false (a : float) :
  is_zero a = false -> forall s, Prim2SF a <> S754_zero s.
Proof.
  unfold is_zero. rewrite FloatAxioms.eqb_spec.
  change (Prim2SF PrimFloat.zero) with (S754_zero false).
  intros H s E. rewrite E in H. discriminate.
Qed.

Lemma is_zero_true (a : float) :
  is_zero a = true -> exists s, Prim2SF a = S754_zero s.
Proof.
  unfold is_zero. rewrite FloatAxioms.eqb_spec.
  change (Prim2SF PrimFloat.zero) with (S754_zero false).
  unfold SFeqb. destruct (Prim2SF a) as [s|s| |s m e]; cbn [SFcompare].
  - intros _. exists s. reflexivity.
  - destruct s; discriminate.
  - discriminate.
  - destruct s; discriminate.
Qed.

(** Two numbers neither of which is below the other are equal, unless the
    first is a zero. *)
Lemma tie_eq (a b : float) :
  is_nan a = false -> is_nan b = false ->
  (a <? b) = false -> (b <? a) = false -> is_zero a = false -> a = b.
Proof.
  intros Ha Hb H1 H2 Hz. apply Prim2SF_inj.
  apply SFcompare_Eq_eq; [|apply is_zero_false, Hz].
  apply FloatFacts.is_nan_spec in Ha. apply FloatFacts.is_nan_spec in Hb.
  rewrite FloatAxioms.ltb_spec in H1, H2. unfold SFltb in H1, H2.
  rewrite (FloatFacts.SFcompare_antisym (Prim2SF a) (Prim2SF b)) in H2.
  destruct (FloatFacts.SFcompare_some _ _ Ha Hb) as [c Hc].
  rewrite Hc in H1, H2 |- *. destruct c; cbn in H2; congruence.
Qed.

Lemma leb_ltb_false (a b : float) : (a <=? b) = true -> (b <? a) = false.
Proof.
  rewrite FloatAxioms.leb_spec, FloatAxioms.ltb_spec. unfold SFleb, SFltb.
  rewrite (FloatFacts.SFcompare_antisym (Prim2SF a) (Prim2SF b)).
  destruct (SFcompare (Prim2SF a) (Prim2SF b)) as [[]|]; cbn; congruence.
Qed.

(** Between its bounds the clamp changes nothing, the bounds included. *)
Lemma clamp_fixed (lo hi x : float) :
  Num.between lo hi x = true -> is_zero lo = false -> is_zero hi = false ->
  Num.Math_max lo (Num.Math_min hi x) = x.
Proof.
  unfold Num.between. intros H Hlz Hhz.
  apply andb_prop in H. destruct H as [H1 H2].
  pose proof (FloatFacts.leb_not_nan_l _ _ H1) as Hlo.
  pose proof (FloatFacts.leb_not_nan_r _ _ H1) as Hx.
  pose proof (FloatFacts.leb_not_nan_r _ _ H2) as Hhi.
  assert (Hm : Num.Math_min hi x = x).
  { unfold Num.Math_min. rewrite Hhi, Hx. cbn [orb].
    rewrite (leb_ltb_false _ _ H2).
    destruct (x <? hi) eqn:E; [reflexivity|].
    destruct (Num.is_neg_zero x); [reflexivity|].
    apply tie_eq; try assumption. apply leb_ltb_false, H2. }
  rewrite Hm. unfold Num.Math_max. rewrite Hlo, Hx. cbn [orb].
  destruct (lo <? x) eqn:E; [reflexivity|].
  rewrite (leb_ltb_false _ _ H1).
  destruct (Num.is_neg_zero lo); [reflexivity|].
  apply tie_eq; try assumption. apply leb_ltb_false, H1.
Qed.

(** A zero times a positive finite number is the same zero. *)
Lemma zero_mul_positive (d k : float) (s : bool) (m : positive) (e : Z) :
  Prim2SF d = S754_zero s -> Prim2SF k = S754_finite false m e ->
  Prim2SF (d * k) = S754_zero s.
Proof.
  intros Hd Hk. rewrite FloatAxioms.mul_spec, Hd, Hk.
  unfold SF64mul, SFmul. rewrite xorb_false_r. reflexivity.
Qed.

(** Adding a zero to a finite number other than zero changes nothing. *)
Lemma add_zero (x z : float) (s : bool) :
  is_finite x = true -> is_zero x = false -> Prim2SF z = S754_zero s ->
  x + z = x.
Proof.
  intros Hf Hz Hs. apply Prim2SF_inj. rewrite FloatAxioms.add_spec, Hs.
  apply FloatFacts.is_finite_spec in Hf. pose proof (is_zero_false x Hz) as Hn.
  destruct (Prim2SF x) as [sx|sx| |sx mx ex]; try discriminate.
  - destruct (Hn sx eq_refl).
  - reflexivity.
Qed.

(** Subtracting the positive zero changes no value. *)
Lemma sub_positive_zero (x z : float) :
  Prim2SF z = S754_zero false -> x - z = x.
Proof.
  intros Hs. apply Prim2SF_inj. rewrite FloatAxioms.sub_spec, Hs.
  destruct (Prim2SF x) as [sx|sx| |sx mx ex]; try reflexivity.
  destruct sx; reflexivity.
Qed.

(** A finite number minus itself is the positive zero. *)
Lemma sub_self (x : float) :
  is_finite x = true -> Prim2SF (x - x) = S754_zero false.
Proof.
  intros Hf. apply FloatFacts.is_finite_spec in Hf.
  rewrite FloatAxioms.sub_spec.
  destruct (Prim2SF x) as [sx|sx| |sx mx ex]; try discriminate.
  - destruct sx; reflexivity.
  - unfold SF64sub, SFsub. cbv zeta. rewrite Z.sub_diag. reflexivity.
Qed.

(** A value between positive bounds is finite and is not a zero. *)
Lemma between_not_zero (lo hi x : float) :
  (0 <? lo) = true -> Num.between lo hi x = true -> is_zero x = false.
Proof.
  unfold Num.between, is_zero. rewrite FloatAxioms.ltb_spec, FloatAxioms.eqb_spec.
  rewrite !FloatAxioms.leb_spec.
  change (Prim2SF 0) with (S754_zero false).
  change (Prim2SF PrimFloat.zero) with (S754_zero false).
  unfold SFltb, SFleb, SFeqb. intros Hlo H.
  apply andb_prop in H. destruct H as [H _].
  destruct (Prim2SF x) as [sx|sx| |sx mx ex]; cbn [SFcompare];
    try reflexivity; try (destruct sx; reflexivity).
  destruct (Prim2SF lo) as [sl|sl| |sl ml el]; cbn [SFcompare] in *;
    try discriminate; destruct sl; discriminate.
Qed.

Section Trigonometry.
Variables Math_sin Math_cos : float -> float.

(** X11: input that carries no displacement causes no drift.  In every
    state the handlers maintain, a wheel event whose [deltaY] is zero
    leaves the radius as it is, and a pointer move to the recorded position
    during a drag leaves both angles as they are. *)
Theorem no_displacement_no_drift (c : Controller) (deltaY : float) :
  invariant c -> is_zero deltaY = true ->
  radius (onWheel deltaY c) = radius c /\
  theta (onMouseMove Math_sin Math_cos (fst (prevMouse c)) (snd (prevMouse c)) c)
    = theta c /\
  phi (onMouseMove Math_sin Math_cos (fst (prevMouse c)) (snd (prevMouse c)) c)
    = phi c.
Proof.
  intros (Hpx & Hpy & Hphi & Hr) Hd.
  assert (Hk8 : exists m e, Prim2SF Num.lit_0_008 = S754_finite false m e)
    by (vm_compute; eauto).
  assert (Hk4 : exists m e, Prim2SF Num.lit_0_004 = S754_finite false m e)
    by (vm_compute; eauto).
  destruct Hk8 as (m8 & e8 & Hk8). destruct Hk4 as (m4 & e4 & Hk4).
  split; [|split].
  - cbn [onWheel radius]. destruct (is_zero_true deltaY Hd) as [s Hs].
    rewrite (add_zero (radius c) (deltaY * Num.lit_0_004) s).
    + apply clamp_fixed; [exact Hr| |]; vm_compute; reflexivity.
    + apply (FloatFacts.between_finite radius_min radius_max); [| |exact Hr];
        vm_compute; reflexivity.
    + apply (between_not_zero radius_min radius_max); [vm_compute; reflexivity|exact Hr].
    + apply (zero_mul_positive _ _ _ _ _ Hs Hk4).
  - unfold onMouseMove. destruct (isDragging c); cbn [negb theta]; [|reflexivity].
    apply sub_positive_zero.
    apply (zero_mul_positive _ _ _ _ _ (sub_self _ Hpx) Hk8).
  - unfold onMouseMove. destruct (isDragging c); cbn [negb phi]; [|reflexivity].
    rewrite (add_zero (phi c) _ false).
    + apply clamp_fixed; [exact Hphi| |]; vm_compute; reflexivity.
    + apply (FloatFacts.between_finite phi_min phi_max); [| |exact Hphi];
        vm_compute; reflexivity.
    + apply (between_not_zero phi_min phi_max); [vm_compute; reflexivity|exact Hphi].
    + apply (zero_mul_positive _ _ _ _ _ (sub_self _ Hpy) Hk8).
Qed.

End Trigonometry.

End RestFacts.

(** ** The render loop, resizing and teardown *)

Module ViewportFacts.
Import Viewport.

Lemma bootstrap_mounted (w h : float) (st : State) :
  listeners st = [] -> scheduled st = [] -> mounted (bootstrap w h st).
Proof.
  intros Hl Hs. destruct st as [l c d a sz ct sc fr nr rd].
  cbn [listeners scheduled] in Hl, Hs. subst l sc.
  split; [reflexivity|].
  exists nr. repeat split; reflexivity.
Qed.

Lemma registered_mounted (st : State) (i : Orbit.Input) :
  mounted st -> registered (listener_of i) st = true /\ registered resize st = true.
Proof.
  intros (Hl & _). unfold registered. rewrite Hl.
  split; [destruct i|]; reflexivity.
Qed.

Section Trigonometry.
Variables Math_sin Math_cos : float -> float.

Lemma dispatch_mounted (st : State) (e : Event) :
  mounted st ->
  mounted (dispatch Math_sin Math_cos st e) /\
  rendered (dispatch Math_sin Math_cos st e) =
    (if is_frame e then S (rendered st) else rendered st) /\
  canvas_attached (dispatch Math_sin Math_cos st e) = canvas_attached st /\
  renderer_disposed (dispatch Math_sin Math_cos st e) = renderer_disposed st.
Proof.
  intros Hm. pose proof Hm as (Hl & id & Hs & Hf & Hn).
  destruct e as [i|w h|]; cbn [dispatch is_frame].
  - rewrite (proj1 (registered_mounted st i Hm)).
    split; [|repeat split; reflexivity].
    split; [exact Hl|]. exists id. repeat split; assumption.
  - rewrite (proj2 (registered_mounted st (Orbit.MouseUp) Hm)).
    split; [|repeat split; reflexivity].
    split; [exact Hl|]. exists id. repeat split; assumption.
  - unfold frame. rewrite Hs. cbn [fold_left animate listeners scheduled
      frameRef next_request rendered canvas_attached renderer_disposed app].
    split; [|repeat split; reflexivity].
    split; [exact Hl|]. exists (next_request st). repeat split; reflexivity.
Qed.

Lemma run_mounted (events : list Event) : forall st : State,
  mounted st ->
  mounted (run Math_sin Math_cos st events) /\
  rendered (run Math_sin Math_cos st events) =
    (rendered st + length (List.filter is_frame events))%nat /\
  canvas_attached (run Math_sin Math_cos st events) = canvas_attached st /\
  renderer_disposed (run Math_sin Math_cos st events) = renderer_disposed st.
Proof.
  induction events as [|e events IH]; intros st Hm.
  - unfold run. cbn [fold_left List.filter length]. rewrite Nat.add_0_r.
    split; [exact Hm|]. repeat split; reflexivity.
  - unfold run. cbn [fold_left List.filter].
    destruct (dispatch_mounted st e Hm) as (Hm' & Hr & Hc & Hd).
    destruct (IH _ Hm') as (Hm'' & Hr' & Hc' & Hd').
    unfold run in *. rewrite Hr', Hc', Hd', Hr, Hc, Hd.
    split; [exact Hm''|]. split; [|split; reflexivity].
    destruct (is_frame e); cbn [length]; lia.
Qed.

(** X12: while the component is mounted the render loop keeps itself
    going and never piles up: after any sequence of input, resizes and
    frames, exactly one frame request is pending and [frameRef] holds its
    handle; the scene has been rendered once at the start and once per
    frame. *)
Theorem render_loop_keeps_one_request (w h : float) (page : State)
    (events : list Event) :
  listeners page = [] -> scheduled page = [] ->
  let st := run Math_sin Math_cos (bootstrap w h page) events in
  (exists id : nat, scheduled st = [id] /\ frameRef st = Some id) /\
  rendered st = (rendered page + 1 + length (List.filter is_frame events))%nat.
Proof.
  intros Hl Hs. cbv zeta.
  destruct (run_mounted events _ (bootstrap_mounted w h page Hl Hs))
    as ((_ & id & H1 & H2 & _) & Hr & _).
  split; [exists id; split; assumption|].
  rewrite Hr. cbn. lia.
Qed.

Lemma inert (st : State) (e : Event) :
  listeners st = [] -> scheduled st = [] -> dispatch Math_sin Math_cos st e = st.
Proof.
  intros Hl Hs. destruct st as [l c d a sz ct sc fr nr rd]. cbn in Hl, Hs. subst.
  destruct e as [i|w h|]; reflexivity.
Qed.

Lemma run_inert (events : list Event) (st : State) :
  listeners st = [] -> scheduled st = [] -> run Math_sin Math_cos st events = st.
Proof.
  intros Hl Hs. induction events as [|e events IH]; [reflexivity|].
  unfold run. cbn [fold_left]. rewrite (inert st e Hl Hs). exact IH.
Qed.

Lemma cleanup_mounted (st : State) :
  mounted st ->
  listeners (cleanup st) = [] /\ scheduled (cleanup st) = [] /\
  canvas_attached (cleanup st) = false /\ renderer_disposed (cleanup st) = true.
Proof.
  intros (Hl & id & Hs & Hf & _).
  destruct st as [l c d a sz ct sc fr nr rd].
  cbn [listeners scheduled frameRef] in Hl, Hs, Hf. subst l sc fr.
  split; [vm_compute; reflexivity|]. split; [|split; reflexivity].
  change (List.filter (fun id' => negb (Nat.eqb id id')) [id] = []).
  cbn [List.filter]. rewrite Nat.eqb_refl. reflexivity.
Qed.

(** X13: the teardown undoes the effect whatever happened in between: the
    five listeners are removed, the pending frame request is cancelled, the
    canvas is detached and the renderer disposed; from then on no input,
    resize or frame changes anything, and nothing is rendered again. *)
Theorem teardown_leaves_nothing_running (w h : float) (page : State)
    (events later : list Event) :
  listeners page = [] -> scheduled page = [] ->
  let st := cleanup (run Math_sin Math_cos (bootstrap w h page) events) in
  listeners st = [] /\ scheduled st = [] /\
  canvas_attached st = false /\ renderer_disposed st = true /\
  run Math_sin Math_cos st later = st.
Proof.
  intros Hl Hs. cbv zeta.
  destruct (run_mounted events _ (bootstrap_mounted w h page Hl Hs)) as (Hm & _).
  destruct (cleanup_mounted _ Hm) as (H1 & H2 & H3 & H4).
  split; [exact H1|]. split; [exact H2|]. split; [exact H3|]. split; [exact H4|].
  apply run_inert; assumption.
Qed.

Lemma dispatch_aspect (st : State) (e : Event) :
  aspect st = fst (size st) / snd (size st) ->
  aspect (dispatch Math_sin Math_cos st e)
    = fst (size (dispatch Math_sin Math_cos st e))
      / snd (size (dispatch Math_sin Math_cos st e)).
Proof.
  intros H. destruct e as [i|w h|]; cbn [dispatch].
  - destruct (registered _ st); [cbn|]; exact H.
  - destruct (registered _ st); [reflexivity|exact H].
  - unfold frame. generalize (scheduled st). intros ids.
    set (s0 := mkState _ _ _ _ _ _ [] _ _ _).
    assert (H0 : aspect s0 = fst (size s0) / snd (size s0)) by exact H.
    clearbody s0. revert s0 H0.
    induction ids as [|id ids IH]; intros s0 H0; [exact H0|].
    cbn [fold_left]. apply IH. exact H0.
Qed.

(** X14: the camera never distorts the image: after the effect and any
    sequence of input, resizes and frames, the aspect ratio of the camera is
    the width of the renderer's output divided by its height, both taken
    from the same reading of the viewport. *)
Theorem aspect_follows_renderer_size (w h : float) (page : State)
    (events : list Event) :
  let st := run Math_sin Math_cos (bootstrap w h page) events in
  aspect st = fst (size st) / snd (size st).
Proof.
  cbv zeta.
  assert (H0 : aspect (bootstrap w h page)
               = fst (size (bootstrap w h page)) / snd (size (bootstrap w h page)))
    by reflexivity.
  revert H0. generalize (bootstrap w h page). intros st H0.
  revert st H0. induction events as [|e events IH]; intros st H0; [exact H0|].
  unfold run. cbn [fold_left]. apply IH, dispatch_aspect, H0.
Qed.

End Trigonometry.

End ViewportFacts.

(** ** Points bodies that are not what the backend documents *)

Module BufferFacts.
Import Coordinates.

Lemma xyz_None (p : Json.value) : Json.xyz p = None <-> p = Json.Null.
Proof.
  split.
  - destruct p; try discriminate. reflexivity.
  - intros ->. reflexivity.
Qed.

(** X15: the three reads of line 144 throw exactly when an element of the
    array is [null]; any other element, whatever its type and whatever
    properties it has or lacks, is read without error. *)
Theorem reads_throw_exactly_on_null (items : list Json.value) :
  Json.flatMap_xyz items = None <-> Json.Null ∈ items.
Proof.
  induction items as [|p items IH].
  - split; [discriminate|]. intros H. apply elem_of_nil in H. destruct H.
  - cbn [Json.flatMap_xyz]. destruct (Json.xyz p) as [coords|] eqn:Ex.
    + assert (Hp : p <> Json.Null).
      { intros ->. discriminate. }
      destruct (Json.flatMap_xyz items) as [more|].
      * split; [discriminate|]. intros H. apply elem_of_cons in H.
        destruct H as [H|H]; [congruence|]. apply IH in H. discriminate.
      * split; [|reflexivity]. intros _. apply elem_of_cons. right.
        apply IH. reflexivity.
    + split; [|reflexivity]. intros _. apply elem_of_cons. left.
      symmetry. apply xyz_None, Ex.
Qed.

Section Conversions.
Variable StringToNumber : string -> float.
Variable ObjectToNumber : Json.value -> option float.

Lemma simple_coordinate (p : Json.value) (key : string) :
  simple p -> key ∈ ["x"; "y"; "z"]%string ->
  exists v : option Json.value,
    Json.get p key = Some v /\
    Json.ToNumber StringToNumber ObjectToNumber v
      = Some match v with Some (Json.Number n) => n | _ => nan end /\
    stored p key = Json.fround match v with Some (Json.Number n) => n | _ => nan end.
Proof.
  intros (Hn & Hv) Hk. unfold stored.
  destruct (Json.get p key) as [[v|]|] eqn:E.
  - destruct (Hv key v Hk E) as (n & ->). exists (Some (Json.Number n)).
    repeat split; reflexivity.
  - exists None. repeat split; reflexivity.
  - destruct p; try discriminate. destruct (Hn eq_refl).
Qed.

(** X16: nothing checks the elements of the points array.  When none is
    [null] and the coordinates that are present are numbers, the buffer is
    built without error: every element, even one that is no object or has
    no coordinates, contributes three entries, a missing coordinate being
    stored as NaN. *)
Theorem missing_coordinates_become_NaN (items : list Json.value) :
  Forall simple items ->
  Store.positions_of StringToNumber ObjectToNumber (Json.Array items) =
  Some (flat_map (fun p => [stored p "x"; stored p "y"; stored p "z"]) items).
Proof.
  unfold Store.positions_of. cbn [Json.flatMap_points].
  induction items as [|p items IH]; intros H; [reflexivity|].
  apply Forall_cons in H. destruct H as [Hp H].
  specialize (IH H). cbn [Json.flatMap_xyz flat_map].
  destruct (simple_coordinate p "x" Hp) as (vx & Ex & Nx & Sx); [set_solver|].
  destruct (simple_coordinate p "y" Hp) as (vy & Ey & Ny & Sy); [set_solver|].
  destruct (simple_coordinate p "z" Hp) as (vz & Ez & Nz & Sz); [set_solver|].
  unfold Json.xyz. rewrite Ex, Ey, Ez.
  destruct (Json.flatMap_xyz items) as [more|]; [|discriminate].
  cbn [app Json.Float32Array]. rewrite Nx, Ny, Nz.
  destruct (Json.Float32Array _ _ more) as [ns|]; [|discriminate].
  injection IH as ->. rewrite Sx, Sy, Sz. reflexivity.
Qed.

End Conversions.

End BufferFacts.

(** ** The properties above at sample inputs *)

Module Instances.
Import Store Session.

Lemma sample_load_succeeds (shapeName : string) :
  succeeds Samples.any_StringToNumber Samples.any_ObjectToNumber
    (shapeName, Samples.ok Samples.two_points, Samples.ok Samples.some_stats).
Proof.
  exists Samples.two_points, Samples.some_stats, [0x1.99999ap-4; 0.5; 1; 2; 3; 4].
  split; [reflexivity|]. split; [reflexivity|].
  apply StoreFacts.two_points_buffer.
Qed.

(** The sphere, the torus and then the cube are loaded. *)
Lemma three_loads_hold_one_cloud :
  let loads := [("sphere"%string, Samples.ok Samples.two_points, Samples.ok Samples.some_stats);
                ("torus"%string, Samples.ok Samples.two_points, Samples.ok Samples.some_stats)] in
  let l := ("cube"%string, Samples.ok Samples.two_points, Samples.ok Samples.some_stats) in
  let st := load_all Samples.any_StringToNumber Samples.any_ObjectToNumber
              unmounted (loads ++ [l]) in
  exists positions : list float,
    pointsRef st = Some (built_points "cube" positions 6) /\
    scene st = [Three.GridHelper; Three.AxesHelper;
                Three.PointCloud (built_points "cube" positions 6)] /\
    disposed st = [0; 1; 3; 4]%nat /\
    NoDup (disposed st) /\
    next_id st = 9%nat.
Proof.
  cbv zeta.
  refine (SessionFacts.successive_loads_hold_one_cloud
            Samples.any_StringToNumber Samples.any_ObjectToNumber
            [("sphere"%string, Samples.ok Samples.two_points, Samples.ok Samples.some_stats);
             ("torus"%string, Samples.ok Samples.two_points, Samples.ok Samples.some_stats)]
            ("cube"%string, Samples.ok Samples.two_points, Samples.ok Samples.some_stats)
            _).
  repeat (apply Forall_cons; split; [apply sample_load_succeeds|]).
  apply Forall_nil. exact I.
Defined.

(** After a sphere is loaded, a load of the cube is answered with the
    error body, and then the torus is loaded. *)
Lemma sphere_disposed_twice :
  let st := completed Samples.any_StringToNumber Samples.any_ObjectToNumber
              "sphere" (Samples.ok Samples.two_points)
              (Samples.ok Samples.some_stats) unmounted in
  let old := built_points "sphere" [0x1.99999ap-4; 0.5; 1; 2; 3; 4] 0 in
  let st1 := completed Samples.any_StringToNumber Samples.any_ObjectToNumber
               "cube" Samples.not_found Samples.not_found st in
  let st2 := completed Samples.any_StringToNumber Samples.any_ObjectToNumber
               "torus" (Samples.ok Samples.two_points)
               (Samples.ok Samples.some_stats) st1 in
  pointsRef st = Some old /\
  clouds (scene st1) = [] /\
  pointsRef st1 = Some old /\
  disposed st2 = disposed st ++ resources (Some old) ++ resources (Some old).
Proof.
  cbv zeta.
  assert (H1 : pointsRef
                 (completed Samples.any_StringToNumber Samples.any_ObjectToNumber
                    "sphere" (Samples.ok Samples.two_points)
                    (Samples.ok Samples.some_stats) unmounted)
               = Some (built_points "sphere" [0x1.99999ap-4; 0.5; 1; 2; 3; 4] 0))
    by (vm_compute; reflexivity).
  assert (H2 : clouds
                 (scene
                    (completed Samples.any_StringToNumber Samples.any_ObjectToNumber
                       "sphere" (Samples.ok Samples.two_points)
                       (Samples.ok Samples.some_stats) unmounted))
               = [built_points "sphere" [0x1.99999ap-4; 0.5; 1; 2; 3; 4] 0])
    by (vm_compute; reflexivity).
  pose proof (SessionFacts.failed_build_leaves_stale_reference
                Samples.any_StringToNumber Samples.any_ObjectToNumber
                "cube" "torus" Samples.not_found Samples.not_found
                (Samples.ok Samples.two_points) (Samples.ok Samples.some_stats)
                _ _ Samples.error_body Samples.error_body
                Samples.two_points Samples.some_stats
                [0x1.99999ap-4; 0.5; 1; 2; 3; 4]
                H1 H2 eq_refl eq_refl eq_refl eq_refl eq_refl
                (StoreFacts.two_points_buffer _ _)) as H.
  cbv zeta in H. destruct H as (Ha & Hb & _ & Hd & _).
  exact (conj H1 (conj Ha (conj Hb Hd))).
Defined.

(** The request of the initial load is rejected. *)
Lemma rejected_initial_load_clears_flag :
  let st := steps Samples.any_StringToNumber Samples.any_ObjectToNumber
              Samples.any_function Samples.any_function mounted
              [Settle 0 NetworkError] in
  inflight st = [] /\ loading st = false.
Proof.
  cbv zeta. split; [reflexivity|].
  apply (ReachFacts.no_load_in_flight_no_flag
           Samples.any_StringToNumber Samples.any_ObjectToNumber
           Samples.any_function Samples.any_function [Settle 0 NetworkError]).
  reflexivity.
Defined.

(** The torus and then the cube are selected; the cube is answered first. *)
Lemma torus_shown_under_cube :
  let st := steps Samples.any_StringToNumber Samples.any_ObjectToNumber
              Samples.any_function Samples.any_function unmounted
              [Press (ShapeButton "torus"); Press (ShapeButton "cube");
               Settle 1 (Response 200 (Some Samples.two_points));
               Settle 1 (Response 200 (Some Samples.full_stats));
               Settle 0 (Response 200 (Some Samples.two_points));
               Settle 0 (Response 200 (Some (Samples.stats_with 9)))] in
  let cloud := built_points "torus" [0x1.99999ap-4; 0.5; 1; 2; 3; 4] 3 in
  shape st = "cube"%string /\
  stats st = Samples.stats_with 9 /\
  pointsRef st = Some cloud /\
  clouds (scene st) = [cloud] /\
  Three.color (Three.material cloud) = 0xff6b6b%Z /\
  inflight st = [] /\ loading st = false /\ error st = None /\
  crashed st = false.
Proof.
  cbv zeta.
  destruct (ReachFacts.late_responses_replace_newer_selection
              Samples.any_StringToNumber Samples.any_ObjectToNumber
              Samples.any_function Samples.any_function "torus" "cube"
              Samples.two_points (Samples.stats_with 9)
              Samples.two_points Samples.full_stats
              [0x1.99999ap-4; 0.5; 1; 2; 3; 4] [0x1.99999ap-4; 0.5; 1; 2; 3; 4]
              unmounted)
    as (H1 & H2 & H3 & H4 & H5 & H6 & H7 & H8).
  - set_solver.
  - set_solver.
  - reflexivity.
  - apply ReachFacts.unmounted_tidy.
  - reflexivity.
  - vm_compute. reflexivity.
  - vm_compute. reflexivity.
  - apply StoreFacts.two_points_buffer.
  - apply StoreFacts.two_points_buffer.
  - split; [exact H1|]. split; [exact H2|]. split; [exact H3|].
    split; [exact H4|]. split; [vm_compute; reflexivity|].
    split; [exact H5|]. split; [exact H6|]. split; [exact H7|exact H8].
Defined.

(** A load of the torus replaces a loaded sphere: the effects, and the
    scene before and after. *)
Lemma torus_replaces_sphere_in_order :
  let st := completed Samples.any_StringToNumber Samples.any_ObjectToNumber
              "sphere" (Samples.ok Samples.two_points)
              (Samples.ok Samples.full_stats) unmounted in
  let st' := completed Samples.any_StringToNumber Samples.any_ObjectToNumber
               "torus" (Samples.ok Samples.two_points)
               (Samples.ok Samples.full_stats) st in
  let sphere := built_points "sphere" [0x1.99999ap-4; 0.5; 1; 2; 3; 4] 0 in
  let torus := built_points "torus" [0x1.99999ap-4; 0.5; 1; 2; 3; 4] 3 in
  pointsRef st = Some sphere /\
  scene st = [Three.GridHelper; Three.AxesHelper; Three.PointCloud sphere] /\
  trace st' =
    trace st ++
    [SetLoading true; SetError None;
     Fetch "shapes/torus.points.json"; Settled "shapes/torus.points.json";
     Fetch "shapes/torus.stats.json"; Settled "shapes/torus.stats.json";
     SetStats Samples.full_stats;
     SceneRemove 2; DisposeGeometry 0; DisposeMaterial 1;
     NewGeometry 3; NewMaterial 4; NewPoints 5; SceneAdd 5; SetPointsRef 5;
     SetLoading false] /\
  pointsRef st' = Some torus /\
  scene st' = [Three.GridHelper; Three.AxesHelper; Three.PointCloud torus] /\
  disposed st' = [0; 1]%nat /\
  clouds (scene st') = [torus] /\
  (Three.PointCloud sphere ∉ scene st').
Proof.
  cbv zeta.
  assert (Hs : pointsRef
                 (completed Samples.any_StringToNumber Samples.any_ObjectToNumber
                    "sphere" (Samples.ok Samples.two_points)
                    (Samples.ok Samples.full_stats) unmounted)
               = Some (built_points "sphere" [0x1.99999ap-4; 0.5; 1; 2; 3; 4] 0))
    by (vm_compute; reflexivity).
  pose proof (ReachFacts.success_effects_in_order Samples.any_StringToNumber
                Samples.any_ObjectToNumber "torus"
                (Samples.ok Samples.two_points) (Samples.ok Samples.full_stats)
                (completed Samples.any_StringToNumber Samples.any_ObjectToNumber
                   "sphere" (Samples.ok Samples.two_points)
                   (Samples.ok Samples.full_stats) unmounted)
                Samples.two_points Samples.full_stats
                [0x1.99999ap-4; 0.5; 1; 2; 3; 4]
                eq_refl eq_refl
                (StoreFacts.two_points_buffer Samples.any_StringToNumber
                   Samples.any_ObjectToNumber)) as H.
  cbv zeta in H. destruct H as (Ht & _ & Hr & Hsc & Hd & _ & _ & _ & Htidy).
  destruct (Htidy (ReachFacts.completed_tidy Samples.any_StringToNumber
                     Samples.any_ObjectToNumber "sphere" _ _ unmounted
                     ReachFacts.unmounted_tidy)) as (Hc & Hold).
  split; [exact Hs|]. split; [vm_compute; reflexivity|].
  split; [rewrite Ht; vm_compute; reflexivity|].
  split; [rewrite Hr; vm_compute; reflexivity|].
  split; [rewrite Hsc; vm_compute; reflexivity|].
  split; [rewrite Hd; vm_compute; reflexivity|].
  split; [rewrite Hc; vm_compute; reflexivity|].
  exact (Hold _ Hs).
Defined.


(** Moves before the first press of a session. *)
Lemma moves_before_first_press :
  let inputs := [Orbit.MouseMove 5 5; Orbit.MouseUp; Orbit.MouseMove 900 40] in
  forallb Gestures.is_move_or_release inputs = true /\
  Orbit.run Samples.any_function Samples.any_function Orbit.initial inputs
    = Orbit.initial.
Proof.
  cbv zeta. split; [reflexivity|].
  apply (GestureFacts.idle_pointer_is_ignored Samples.any_function
           Samples.any_function); reflexivity.
Defined.

(** A horizontal scroll and a stationary move after a press. *)
Lemma pressed_and_still :
  let c := Orbit.onMouseDown 10 20 Orbit.initial in
  Orbit.radius (Orbit.onWheel 0 c) = Orbit.radius c /\
  Orbit.theta (Orbit.onMouseMove Samples.any_function Samples.any_function 10 20 c)
    = Orbit.theta c /\
  Orbit.phi (Orbit.onMouseMove Samples.any_function Samples.any_function 10 20 c)
    = Orbit.phi c.
Proof.
  cbv zeta.
  apply (RestFacts.no_displacement_no_drift Samples.any_function
           Samples.any_function (Orbit.onMouseDown 10 20 Orbit.initial) 0).
  - repeat split; vm_compute; reflexivity.
  - vm_compute. reflexivity.
Defined.

(** Two frames, a zoom and a resize after mounting on a blank page. *)
Lemma loop_after_two_frames :
  let events := [Viewport.Frame; Viewport.Input (Orbit.Wheel 100);
                 Viewport.Resize 800 600; Viewport.Frame] in
  let st := Viewport.run Samples.any_function Samples.any_function
              (Viewport.bootstrap 1024 768 Viewport.blank) events in
  (exists id : nat, Viewport.scheduled st = [id] /\ Viewport.frameRef st = Some id) /\
  Viewport.rendered st = 3%nat.
Proof.
  cbv zeta.
  apply (ViewportFacts.render_loop_keeps_one_request Samples.any_function
           Samples.any_function 1024 768 Viewport.blank
           [Viewport.Frame; Viewport.Input (Orbit.Wheel 100);
            Viewport.Resize 800 600; Viewport.Frame]); reflexivity.
Defined.

Lemma teardown_after_two_frames :
  let events := [Viewport.Frame; Viewport.Input (Orbit.Wheel 100);
                 Viewport.Resize 800 600; Viewport.Frame] in
  let later := [Viewport.Frame; Viewport.Input (Orbit.MouseDown 1 1);
                Viewport.Resize 10 10] in
  let st := Viewport.cleanup
              (Viewport.run Samples.any_function Samples.any_function
                 (Viewport.bootstrap 1024 768 Viewport.blank) events) in
  Viewport.listeners st = [] /\ Viewport.scheduled st = [] /\
  Viewport.canvas_attached st = false /\ Viewport.renderer_disposed st = true /\
  Viewport.run Samples.any_function Samples.any_function st later = st.
Proof.
  cbv zeta.
  apply (ViewportFacts.teardown_leaves_nothing_running Samples.any_function
           Samples.any_function 1024 768 Viewport.blank); reflexivity.
Defined.

(** A number, an empty object, a point and a string as elements. *)
Lemma odd_elements_are_accepted :
  let items := [Json.Number 7; Json.Object []; Json.point 1 2 3; Json.String "a"] in
  Forall Coordinates.simple items /\
  Store.positions_of Samples.any_StringToNumber Samples.any_ObjectToNumber
    (Json.Array items) =
  Some (flat_map (fun p => [Coordinates.stored p "x"; Coordinates.stored p "y";
                            Coordinates.stored p "z"]) items).
Proof.
  cbv zeta.
  assert (H : Forall Coordinates.simple
                [Json.Number 7; Json.Object []; Json.point 1 2 3; Json.String "a"]).
  { repeat (apply Forall_cons; split); try apply Forall_nil; try exact I;
      (split; [discriminate|]); intros key v Hk Hg; try discriminate.
    repeat (apply elem_of_cons in Hk; destruct Hk as [->|Hk];
            [injection Hg as <-; eexists; reflexivity|]).
    apply elem_of_nil in Hk. destruct Hk. }
  split; [exact H|].
  apply (BufferFacts.missing_coordinates_become_NaN
           Samples.any_StringToNumber Samples.any_ObjectToNumber _ H).
Defined.

End Instances.
